(** * noiseapp: the upload form component and the Express server stub

    A shallow embedding of
    - [frontend/src/components/FileUpload.tsx]: the React component
      [FileUpload] with its handlers [handleDrag], [handleDrop],
      [handleFileChange], [classifyAudio] and [handleSubmit];
    - [backend/src/index.js]: the Express application with its two routes.

    The component's [useState] cells are the fields of one record; a handler
    is a computation that reads the cells of the render it was created in,
    calls setters, performs awaited calls whose outcome the environment
    decides, and may throw.  Everything observable outside the component
    state (network requests, the [onUpload] prop, the console, the DOM) is
    recorded in a trace.  The answer of the endpoint is a JSON value of any
    shape, as the code does not validate it.  What Express, Node and the
    JavaScript engine decide, and the sources do not, is taken as given:
    route matching, conditional requests, [listen], [>] on operands that are
    not two numbers. *)

From Stdlib Require Import List String Ascii ZArith QArith Bool Lia.
From Stdlib Require Import Permutation.
From Stdlib.Strings Require Import Byte.
From Stdlib Require Import DecimalString.
Import ListNotations.

Local Open Scope string_scope.
Local Open Scope list_scope.

(** ** JavaScript strings and values

    A string is a sequence of code units; the code units of [String.string]
    cover the range 0..255. *)

Module Js.

Definition strlen (s : string) : nat := String.length s.

(** [String.prototype.endsWith(searchString)]. *)
Definition endsWith (s searchString : string) : bool :=
  let n := strlen s in
  let k := strlen searchString in
  if (k <=? n)%nat
  then String.eqb (substring (n - k) k s) searchString
  else false.

(** WhiteSpace and LineTerminator code units below 256: TAB, LF, VT, FF, CR,
    SP and NBSP. *)
Definition isWhiteSpace (c : ascii) : bool :=
  let n := nat_of_ascii c in
  ((9 <=? n) && (n <=? 13) || (n =? 32) || (n =? 160))%nat.

Fixpoint trimStart (s : string) : string :=
  match s with
  | EmptyString => EmptyString
  | String c s' => if isWhiteSpace c then trimStart s' else s
  end.

Fixpoint trimEnd (s : string) : string :=
  match s with
  | EmptyString => EmptyString
  | String c s' =>
      match trimEnd s' with
      | EmptyString => if isWhiteSpace c then EmptyString else String c EmptyString
      | t => String c t
      end
  end.

(** [String.prototype.trim()]. *)
Definition trim (s : string) : string := trimEnd (trimStart s).

(** ToBoolean on a string: only the empty string is falsy. *)
Definition truthy (s : string) : bool := negb (String.eqb s "").

(** ToBoolean on [string | undefined]. *)
Definition truthyOpt (o : option string) : bool :=
  match o with
  | None => false
  | Some s => truthy s
  end.

(** ToString on [string | undefined], as a template literal applies it. *)
Definition toStringOpt (o : option string) : string :=
  match o with
  | None => "undefined"
  | Some s => s
  end.

(** ToString on an integer [number], as a template literal applies it. *)
Definition numberToString (z : Z) : string :=
  NilZero.string_of_int (Z.to_int z).

(** Every character of the string is white space. *)
Fixpoint whitespaceOnly (s : string) : bool :=
  match s with
  | EmptyString => true
  | String c s' => isWhiteSpace c && whitespaceOnly s'
  end.

(** A thrown value: an [Error] object with its message, or any other
    value ([instanceof Error] is all the code asks of it). *)
Inductive thrown : Type :=
  | ErrorObject (message : string)
  | NonError.

(** [e instanceof Error ? e.message : dflt]. *)
Definition messageOr (e : thrown) (dflt : string) : string :=
  match e with
  | ErrorObject m => m
  | NonError => dflt
  end.

(** How a statement, a call or a promise ends. *)
Inductive completion (A : Type) : Type :=
  | Normal (a : A)
  | Throw (e : thrown).
Arguments Normal {A} a.
Arguments Throw {A} e.

Definition isNormal {A} (c : completion A) : bool :=
  match c with
  | Normal _ => true
  | Throw _ => false
  end.

(** [Array.prototype.reduce(callback)] without an initial value: the
    accumulator starts at the first element; on an empty array it throws a
    TypeError. *)
Definition reduce {A} (callback : A -> A -> A) (l : list A) : completion A :=
  match l with
  | [] => Throw (ErrorObject "Reduce of empty array with no initial value")
  | x :: xs => Normal (fold_left callback xs x)
  end.

(** A JavaScript value: [undefined], or a value as [JSON.parse] builds them.
    A number is a finite one, represented by its rational value; an object
    is given by its own properties. *)
#[warnings="-register-all"]
Inductive value : Type :=
| VUndefined
| VNull
| VBool (b : bool)
| VNumber (q : Q)
| VString (s : string)
| VArray (elements : list value)
| VObject (own : members)
with members : Type :=
| NoMember
| Member (key : string) (v : value) (rest : members).

(** The own property of that name, [undefined] when there is none. *)
Fixpoint member (key : string) (own : members) : value :=
  match own with
  | NoMember => VUndefined
  | Member k v rest => if String.eqb k key then v else member key rest
  end.

(** [v.name], for a name that no prototype defines ([length] of strings and
    arrays apart): the component reads [length], [label] and [score].
    Reading a property of [undefined] or [null] fails ([None]). *)
Definition propertyOf (v : value) (name : string) : option value :=
  match v with
  | VUndefined | VNull => None
  | VBool _ | VNumber _ => Some VUndefined
  | VString s =>
      Some (if String.eqb name "length"
            then VNumber (inject_Z (Z.of_nat (String.length s)))
            else VUndefined)
  | VArray elements =>
      Some (if String.eqb name "length"
            then VNumber (inject_Z (Z.of_nat (List.length elements)))
            else VUndefined)
  | VObject own => Some (member name own)
  end.

(** What a [TypeError] is thrown for; its message is the engine's. *)
Inductive fault : Type :=
| PropertyOfNullish (v : value) (name : string)
| NotAFunction (name : string)
| ReduceOfEmptyArray.

(** A state cell typed [T | null] holds [null] as [None]. *)
Definition fromNullable (v : value) : option value :=
  match v with
  | VNull => None
  | _ => Some v
  end.

(** Sequencing of evaluations that may throw. *)
Definition andThen {A B} (c : completion A) (k : A -> completion B)
    : completion B :=
  match c with
  | Normal a => k a
  | Throw e => Throw e
  end.

(** [Array.prototype.reduce(callback)] without an initial value, for a
    callback that may throw: the accumulator starts at the first element and
    a throw of the callback ends the scan. *)
Fixpoint reduceFrom (callback : value -> value -> completion value)
    (accumulator : value) (rest : list value) : completion value :=
  match rest with
  | [] => Normal accumulator
  | current :: rest' =>
      andThen (callback accumulator current)
        (fun accumulator' => reduceFrom callback accumulator' rest')
  end.

End Js.

Import Js.

(** ** Data model of the component *)

(** The browser's [File]: the fields the component reads. *)
Module File.
Record t : Type := mk {
  name : string;
  size : Z;
  type : string;
  lastModified : Z
}.
End File.

(** [ClassificationResult]: what the component declares the elements of the
  endpoint's answer to be.  A score is a number parsed from the JSON body of
  the endpoint's response, so it is never NaN; it is represented by its
  rational value, on which [>] is the order of the numbers. *)
Module ClassificationResult.
Record t : Type := mk {
  label : string;
  score : Q
}.
End ClassificationResult.

(** The top prediction.  The answer of the endpoint is not validated, so what
    is read from it and recorded is a value of any shape. *)
Module TopPrediction.
Record t : Type := mk {
  label : value;
  confidence : value
}.
End TopPrediction.

(** [UploadedFileInfo].  [handleSubmit] always gives the two optional
  fields. *)
Module UploadedFileInfo.
Record t : Type := mk {
  name : string;
  size : Z;
  type : string;
  lastModified : Z;
  location : string;
  uploadTime : string;
  classification : option value;
  topPrediction : option TopPrediction.t
}.
End UploadedFileInfo.

Definition ENDPOINT_URL : string :=
  "https://uqkktcn5dm2ucj8d.us-east-1.aws.endpoints.huggingface.cloud".

(** The request [classifyAudio] hands to [fetch]. *)
Module Request.
Record t : Type := mk {
  url : string;
  method : string;
  authorization : string;
  contentType : string;
  body : list byte
}.
End Request.

(** The [Response] [fetch] resolves with.  Reading the body ([text()],
  [json()]) is a promise of its own; [json()] resolves with whatever value
  the body parses to. *)
Module Response.
Record t : Type := mk {
  status : Z;
  statusText : string;
  headers : list (string * string);
  text : completion string;
  json : completion value
}.

(** [Response.ok]: the status is in the range 200-299. *)
Definition ok (r : t) : bool := ((200 <=? status r) && (status r <=? 299))%Z.
End Response.


(** ** Component state, environment and trace *)

(** The eight [useState] cells of [FileUpload]. *)
Module State.
Record t : Type := mk {
  file : option File.t;
  location : string;
  isUploading : bool;
  isClassifying : bool;
  error : option string;
  dragActive : bool;
  uploadedFiles : list UploadedFileInfo.t;
  classificationResult : option value
}.

(** [useState] initial values. *)
Definition initial : t :=
  mk None "" false false None false [] None.
End State.

(** The two operations a submission awaits. *)
Inductive operation : Type :=
| Classification (audioFile : File.t)
| Upload (file : File.t) (location : string).

(** What [console.error] is given after its first argument. *)
Inductive logged : Type :=
| LoggedResponse (status : Z) (statusText : string)
    (headers : list (string * string)) (body : string)
| LoggedThrown (e : thrown).

(** Effects outside the component state, in the order they happen. *)
Inductive event : Type :=
| PreventDefault
| StopPropagation
| Started (op : operation)
| Settled (op : operation) (fulfilled : bool)
| ReadArrayBuffer (audioFile : File.t)
| Fetch (request : Request.t)
| ReadText
| ReadJson
| ConsoleError (message : string) (detail : logged)
| ClearFileInput.

(** What the component does not decide: the outcome of every awaited call of
    one handler run, the clock, the DOM, and of the JavaScript engine what
    the code leaves to it ([>] on operands that are not two numbers, the
    message of a TypeError). *)
Module World.
Record t : Type := mk {
  arrayBuffer : File.t -> completion (list byte);
  fetch : Request.t -> completion Response.t;
  onUpload : File.t -> string -> completion unit;
  toLocaleString : string;
  fileInputMounted : bool;
  greaterThan : value -> value -> bool;
  typeErrorMessage : fault -> string
}.
End World.

(** ** Handlers as computations

    A computation takes the current state and gives back how it completed,
    the state after it and the effects it performed. *)

Definition M (A : Type) : Type :=
  State.t -> completion A * State.t * list event.

Definition ret {A} (a : A) : M A :=
  fun s => (Normal a, s, []).

Definition bind {A B} (m : M A) (k : A -> M B) : M B :=
  fun s =>
    match m s with
    | (Normal a, s1, t1) =>
        let '(r, s2, t2) := k a s1 in (r, s2, t1 ++ t2)
    | (Throw e, s1, t1) => (Throw e, s1, t1)
    end.

Definition throw {A} (e : thrown) : M A :=
  fun s => (Throw e, s, []).

(** [try { body } catch (e) { handler e }]. *)
Definition try_catch {A} (body : M A) (handler : thrown -> M A) : M A :=
  fun s =>
    match body s with
    | (Normal a, s1, t1) => (Normal a, s1, t1)
    | (Throw e, s1, t1) =>
        let '(r, s2, t2) := handler e s1 in (r, s2, t1 ++ t2)
    end.

(** [try { body } finally { finalizer }]: the finalizer runs however the body
    completes, and the body's completion stands unless the finalizer throws. *)
Definition try_finally {A} (body : M A) (finalizer : M unit) : M A :=
  fun s =>
    let '(r, s1, t1) := body s in
    match finalizer s1 with
    | (Normal _, s2, t2) => (r, s2, t1 ++ t2)
    | (Throw e, s2, t2) => (Throw e, s2, t1 ++ t2)
    end.

Definition emit (e : event) : M unit :=
  fun s => (Normal tt, s, [e]).

Definition modify (f : State.t -> State.t) : M unit :=
  fun s => (Normal tt, f s, []).

(** [await p] for a promise of the environment: settle to its outcome. *)
Definition await {A} (p : completion A) : M A :=
  fun s => (p, s, []).

(** A synchronous library call that may throw. *)
Definition call {A} (c : completion A) : M A :=
  fun s => (c, s, []).

(** [await] of an operation: it is in flight from [Started] to [Settled], and
    the handler resumes with its outcome. *)
Definition awaiting {A} (op : operation) (m : M A) : M A :=
  fun s =>
    let '(r, s1, t1) := m s in
    (r, s1, Started op :: t1 ++ [Settled op (isNormal r)]).

Declare Scope js_scope.
Delimit Scope js_scope with js.
Notation "x <- m ;; k" := (bind m (fun x => k))
  (at level 61, m at next level, right associativity) : js_scope.
Notation "m ;; k" := (bind m (fun _ => k))
  (at level 61, right associativity) : js_scope.
Local Open Scope js_scope.

(** The setters of the [useState] cells. *)

Definition setFile (v : option File.t) : M unit :=
  modify (fun s => State.mk v (State.location s) (State.isUploading s)
    (State.isClassifying s) (State.error s) (State.dragActive s)
    (State.uploadedFiles s) (State.classificationResult s)).

Definition setLocation (v : string) : M unit :=
  modify (fun s => State.mk (State.file s) v (State.isUploading s)
    (State.isClassifying s) (State.error s) (State.dragActive s)
    (State.uploadedFiles s) (State.classificationResult s)).

Definition setIsUploading (v : bool) : M unit :=
  modify (fun s => State.mk (State.file s) (State.location s) v
    (State.isClassifying s) (State.error s) (State.dragActive s)
    (State.uploadedFiles s) (State.classificationResult s)).

Definition setIsClassifying (v : bool) : M unit :=
  modify (fun s => State.mk (State.file s) (State.location s)
    (State.isUploading s) v (State.error s) (State.dragActive s)
    (State.uploadedFiles s) (State.classificationResult s)).

Definition setError (v : option string) : M unit :=
  modify (fun s => State.mk (State.file s) (State.location s)
    (State.isUploading s) (State.isClassifying s) v (State.dragActive s)
    (State.uploadedFiles s) (State.classificationResult s)).

Definition setDragActive (v : bool) : M unit :=
  modify (fun s => State.mk (State.file s) (State.location s)
    (State.isUploading s) (State.isClassifying s) (State.error s) v
    (State.uploadedFiles s) (State.classificationResult s)).

(** [setUploadedFiles] is called with an updater: it is applied to the list
    the cell holds when the update runs. *)
Definition setUploadedFiles
    (updater : list UploadedFileInfo.t -> list UploadedFileInfo.t) : M unit :=
  modify (fun s => State.mk (State.file s) (State.location s)
    (State.isUploading s) (State.isClassifying s) (State.error s)
    (State.dragActive s) (updater (State.uploadedFiles s))
    (State.classificationResult s)).

Definition setClassificationResult (v : option value) : M unit :=
  modify (fun s => State.mk (State.file s) (State.location s)
    (State.isUploading s) (State.isClassifying s) (State.error s)
    (State.dragActive s) (State.uploadedFiles s) v).

(** ** The handlers of [FileUpload] *)

(** [a > b] on scores. *)
Definition Qgtb (a b : Q) : bool := negb (Qle_bool a b).

(** The MP3 test both [handleDrop] and [handleFileChange] apply. *)
Definition isMp3 (f : File.t) : bool :=
  String.eqb (File.type f) "audio/mpeg" || endsWith (File.name f) ".mp3".

Definition handleDrag (eventType : string) : M unit :=
  emit PreventDefault ;;
  emit StopPropagation ;;
  if String.eqb eventType "dragenter" || String.eqb eventType "dragover"
  then setDragActive true
  else if String.eqb eventType "dragleave"
  then setDragActive false
  else ret tt.

(** [files] is [e.dataTransfer.files]. *)
Definition handleDrop (files : list File.t) : M unit :=
  emit PreventDefault ;;
  emit StopPropagation ;;
  setDragActive false ;;
  match files with
  | droppedFile :: _ =>
      if isMp3 droppedFile
      then
        setFile (Some droppedFile) ;;
        setError None ;;
        setClassificationResult None
      else setError (Some "Please upload an MP3 file")
  | [] => ret tt
  end.

(** [files] is [e.target.files] ([null] is the empty list). *)
Definition handleFileChange (files : list File.t) : M unit :=
  match files with
  | selectedFile :: _ =>
      if isMp3 selectedFile
      then
        setFile (Some selectedFile) ;;
        setError None ;;
        setClassificationResult None
      else setError (Some "Please upload an MP3 file")
  | [] => ret tt
  end.

Definition unknownPrediction : TopPrediction.t :=
  TopPrediction.mk (VString "unknown") (VNumber 0).

(** The callback of the [reduce] in [handleSubmit], on results of the
    declared type [{label: string, score: number}]; [scoreCallback] below is
    the callback on any value, and [rank_ofResults] relates the two. *)
Definition higherScore (max current : ClassificationResult.t)
    : ClassificationResult.t :=
  if Qgtb (ClassificationResult.score current) (ClassificationResult.score max)
  then current
  else max.

(** A result of the declared type as the value [JSON.parse] builds for it. *)
Definition ofResult (r : ClassificationResult.t) : value :=
  VObject (Member "label" (VString (ClassificationResult.label r))
          (Member "score" (VNumber (ClassificationResult.score r)) NoMember)).

Definition ofResults (l : list ClassificationResult.t) : value :=
  VArray (map ofResult l).

Section Component.

(** [const HF_API_TOKEN = import.meta.env.VITE_HF_API_TOKEN], evaluated once,
    when the module is loaded. *)
Variable HF_API_TOKEN : option string.

Variable w : World.t.

Definition typeError (f : fault) : thrown :=
  ErrorObject (World.typeErrorMessage w f).

(** [v.name] where it is evaluated: a [TypeError] on [undefined] and
    [null]. *)
Definition getProperty (v : value) (name : string) : completion value :=
  match propertyOf v name with
  | Some x => Normal x
  | None => Throw (typeError (PropertyOfNullish v name))
  end.

(** [a > b]: the order of the numbers on two numbers, false when an operand
    is [undefined] (it converts to NaN); otherwise the engine's
    conversions decide. *)
Definition greater (a b : value) : bool :=
  match a, b with
  | VNumber x, VNumber y => Qgtb x y
  | VUndefined, _ | _, VUndefined => false
  | _, _ => World.greaterThan w a b
  end.

(** [(max, current) => current.score > max.score ? current : max]. *)
Definition scoreCallback (max current : value) : completion value :=
  andThen (getProperty current "score") (fun currentScore =>
  andThen (getProperty max "score") (fun maxScore =>
  Normal (if greater currentScore maxScore then current else max))).

(** [classification.reduce(callback)]: the array method on an array; on any
    other value there is no such method to call. *)
Definition callReduce (classification : value)
    (callback : value -> value -> completion value) : completion value :=
  match classification with
  | VArray [] => Throw (typeError ReduceOfEmptyArray)
  | VArray (first :: rest) => reduceFrom callback first rest
  | VUndefined | VNull =>
      Throw (typeError (PropertyOfNullish classification "reduce"))
  | _ => Throw (typeError (NotAFunction "reduce"))
  end.

(** The statements of the inner [try] after the assignment of
    [classification]: what they assign to [topPrediction], if anything. *)
Definition rank (classification : value) : completion (option TopPrediction.t) :=
  andThen (getProperty classification "length") (fun length =>
  if greater length (VNumber 0)
  then
    andThen (callReduce classification scoreCallback) (fun top =>
    andThen (getProperty top "label") (fun label =>
    andThen (getProperty top "score") (fun confidence =>
    Normal (Some (TopPrediction.mk label confidence)))))
  else Normal None).

Definition classifyAudio (audioFile : File.t) : M value :=
  setIsClassifying true ;;
  setClassificationResult None ;;
  try_finally
    (try_catch
       ((if negb (truthyOpt HF_API_TOKEN)
         then throw (ErrorObject "Hugging Face API token is not configured")
         else ret tt) ;;
        emit (ReadArrayBuffer audioFile) ;;
        arrayBuffer <- await (World.arrayBuffer w audioFile) ;;
        let request :=
          Request.mk ENDPOINT_URL "POST"
            ("Bearer " ++ toStringOpt HF_API_TOKEN)
            "audio/mpeg" arrayBuffer in
        emit (Fetch request) ;;
        response <- await (World.fetch w request) ;;
        (if negb (Response.ok response)
         then
           emit ReadText ;;
           errorText <- await (Response.text response) ;;
           emit (ConsoleError "API Error Response:"
                   (LoggedResponse (Response.status response)
                      (Response.statusText response)
                      (Response.headers response) errorText)) ;;
           (if (Response.status response =? 503)%Z
            then throw (ErrorObject
                          "Model is loading, please wait a moment and try again")
            else ret tt) ;;
           throw (ErrorObject
                    ("Endpoint error: "
                       ++ numberToString (Response.status response)
                       ++ " - " ++ Response.statusText response))
         else ret tt) ;;
        emit ReadJson ;;
        result <- await (Response.json response) ;;
        setClassificationResult (fromNullable result) ;;
        ret result)
       (fun error =>
          emit (ConsoleError "Classification error:" (LoggedThrown error)) ;;
          throw (ErrorObject
                   ("Classification failed: " ++ messageOr error "Unknown error"))))
    (setIsClassifying false).

(** The [catch] of the inner [try] of [handleSubmit]; [topPrediction] is
    still as initialised, [classification] is as assigned so far. *)
Definition classificationCaught (classification : value) (classError : thrown)
    : M (value * TopPrediction.t) :=
  emit (ConsoleError "Classification failed:" (LoggedThrown classError)) ;;
  setError (Some ("Audio classification failed: "
                    ++ messageOr classError "Unknown error")%string) ;;
  ret (classification, unknownPrediction).

(** The inner [try] of [handleSubmit] with its [catch]; the value is the pair
    of the locals [classification] and [topPrediction] after it.  The source
    has one [try] around the assignment of [classification] and the ranking:
    a throw of [classifyAudio] is caught with the local still [[]], a throw
    of the ranking with the local already assigned. *)
Definition classifyAndRank (file : File.t) : M (value * TopPrediction.t) :=
  try_catch
    (classification <- awaiting (Classification file) (classifyAudio file) ;;
     try_catch
       (top <- call (rank classification) ;;
        ret (classification,
             match top with
             | Some prediction => prediction
             | None => unknownPrediction
             end))
       (classificationCaught classification))
    (classificationCaught (VArray [])).

(** [file] and [location] are the values of the render the handler closes
    over: the cells as they are when the form is submitted. *)
Definition handleSubmit : M unit :=
  fun s0 =>
    let file := State.file s0 in
    let location := State.location s0 in
    (emit PreventDefault ;;
     match file with
     | None => setError (Some "Please select a file to upload")
     | Some file =>
         if negb (truthy (trim location))
         then setError (Some "Please enter a location")
         else
           try_finally
             (try_catch
                (setIsUploading true ;;
                 setError None ;;
                 locals <- classifyAndRank file ;;
                 let '(classification, topPrediction) := locals in
                 awaiting (Upload file location)
                   (await (World.onUpload w file location)) ;;
                 let fileInfo :=
                   UploadedFileInfo.mk (File.name file) (File.size file)
                     (File.type file) (File.lastModified file) location
                     (World.toLocaleString w)
                     (Some classification) (Some topPrediction) in
                 setUploadedFiles (fun prev => fileInfo :: prev) ;;
                 setFile None ;;
                 setLocation "" ;;
                 setClassificationResult None ;;
                 if World.fileInputMounted w
                 then emit ClearFileInput
                 else ret tt)
                (fun err =>
                   setError (Some (messageOr err "Failed to upload file"))))
             (setIsUploading false)
     end) s0.

End Component.

(** Projections of a run. *)
Definition outcomeOf {A} (r : completion A * State.t * list event)
    : completion A := fst (fst r).
Definition stateOf {A} (r : completion A * State.t * list event)
    : State.t := snd (fst r).
Definition traceOf {A} (r : completion A * State.t * list event)
    : list event := snd r.

(** ** Observations on a run *)

(** The arguments of every invocation of the [onUpload] prop. *)
Fixpoint uploadCalls (t : list event) : list (File.t * string) :=
  match t with
  | [] => []
  | Started (Upload f loc) :: t' => (f, loc) :: uploadCalls t'
  | _ :: t' => uploadCalls t'
  end.

(** The requests handed to [fetch]. *)
Fixpoint fetchRequests (t : list event) : list Request.t :=
  match t with
  | [] => []
  | Fetch request :: t' => request :: fetchRequests t'
  | _ :: t' => fetchRequests t'
  end.

(** The events at which an awaited operation starts or settles. *)
Definition isSpanEvent (e : event) : bool :=
  match e with
  | Started _ | Settled _ _ => true
  | _ => false
  end.

Definition spans (t : list event) : list event := filter isSpanEvent t.




(** What a call of [classifyAudio] returns or throws, the effects it performs,
    and its effect on the state: none of the first two depends on the state
    it starts in (see [classifyAudio_run]). *)
Definition classificationOf (token : option string) (w : World.t)
    (audioFile : File.t) : completion value :=
  outcomeOf (classifyAudio token w audioFile State.initial).

Definition classifyTrace (token : option string) (w : World.t)
    (audioFile : File.t) : list event :=
  traceOf (classifyAudio token w audioFile State.initial).

Definition afterClassify (s : State.t) (r : completion value) : State.t :=
  State.mk (State.file s) (State.location s) (State.isUploading s) false
    (State.error s) (State.dragActive s) (State.uploadedFiles s)
    (match r with
     | Normal result => fromNullable result
     | Throw _ => None
     end).

(** The request [classifyAudio] builds from the token and the file's bytes. *)
Definition endpointRequest (token : option string) (bytes : list byte)
    : Request.t :=
  Request.mk ENDPOINT_URL "POST" ("Bearer " ++ toStringOpt token) "audio/mpeg"
    bytes.

(** The thrown value is an [Error] whose message ends in the 503 text. *)
Definition reportsModelLoading (e : thrown) : Prop :=
  exists prefix,
    e = ErrorObject
          (prefix ++ "Model is loading, please wait a moment and try again").

(** The file offered is an MP3 by its MIME type or by its name. *)
Definition mp3Offered (f : File.t) : Prop :=
  File.type f = "audio/mpeg" \/
  exists stem, File.name f = (stem ++ ".mp3")%string.

(** The offered file became the pending file of a clean form. *)
Definition accepted (f : File.t) (s : State.t) : Prop :=
  State.file s = Some f /\
  State.error s = None /\
  State.classificationResult s = None.

(** ** Summary of a submission

    What [handleSubmit] leaves behind once the guards are passed, as a
    function of how the classification ended; [handleSubmit_run] proves the
    handler equal to it. *)

(** What the inner [catch] caught, if it ran: the throw of [classifyAudio] or
    the throw of the ranking. *)
Definition innerFailure (w : World.t) (c : completion value) : option thrown :=
  match c with
  | Throw e => Some e
  | Normal classification =>
      match rank w classification with
      | Throw e => Some e
      | Normal _ => None
      end
  end.

(** The locals [classification] and [topPrediction] after the inner [try]. *)
Definition rankedLocals (w : World.t) (c : completion value)
    : value * TopPrediction.t :=
  match c with
  | Throw _ => (VArray [], unknownPrediction)
  | Normal classification =>
      (classification,
       match rank w classification with
       | Normal (Some prediction) => prediction
       | _ => unknownPrediction
       end)
  end.

(** The error cell after the inner [try]. *)
Definition classificationError (w : World.t) (c : completion value)
    : option string :=
  match innerFailure w c with
  | None => None
  | Some e =>
      Some ("Audio classification failed: " ++ messageOr e "Unknown error")%string
  end.

(** The effects up to and including the inner [catch]. *)
Definition classificationPhase (token : option string) (w : World.t)
    (f : File.t) : list event :=
  let c := classificationOf token w f in
  PreventDefault :: Started (Classification f) :: classifyTrace token w f ++
  Settled (Classification f) (isNormal c) ::
  match innerFailure w c with
  | None => []
  | Some e => [ConsoleError "Classification failed:" (LoggedThrown e)]
  end.

(** The state with another content of the error cell. *)
Definition withError (v : option string) (s : State.t) : State.t :=
  State.mk (State.file s) (State.location s) (State.isUploading s)
    (State.isClassifying s) v (State.dragActive s) (State.uploadedFiles s)
    (State.classificationResult s).

(** ** Sample inputs *)

Module Sample.

Definition song : File.t :=
  File.mk "street.mp3" 2048 "audio/mpeg" 1700000000000.

Definition recording : File.t :=
  File.mk "field-recording.mp3" 4096 "" 1700000000000.

Definition notes : File.t :=
  File.mk "notes.txt" 12 "text/plain" 1700000000000.

Definition ready : State.t :=
  State.mk (Some song) "Downtown Park" false false None false [] None.

Definition scores : list ClassificationResult.t :=
  [ ClassificationResult.mk "low" (1 # 10);
    ClassificationResult.mk "high" (7 # 10);
    ClassificationResult.mk "very_high" (7 # 10);
    ClassificationResult.mk "moderate" (2 # 10) ].

Definition classified : Response.t :=
  Response.mk 200 "OK" [] (Normal "") (Normal (ofResults scores)).

Definition loading : Response.t :=
  Response.mk 503 "Service Unavailable" [] (Normal "scaling up")
    (Throw (ErrorObject "Unexpected token")).

(** A 503 whose body cannot be read: the connection drops after the
    headers. *)
Definition loadingBodyLost : Response.t :=
  Response.mk 503 "Service Unavailable" [] (Throw (ErrorObject "network error"))
    (Throw (ErrorObject "network error")).

(** The messages of one engine. *)
Definition typeErrorMessage (f : fault) : string :=
  match f with
  | PropertyOfNullish VNull name =>
      "Cannot read properties of null (reading '" ++ name ++ "')"
  | PropertyOfNullish _ name =>
      "Cannot read properties of undefined (reading '" ++ name ++ "')"
  | NotAFunction name => "classification." ++ name ++ " is not a function"
  | ReduceOfEmptyArray => "Reduce of empty array with no initial value"
  end.

Definition world (response : completion Response.t) (upload : completion unit)
    : World.t :=
  World.mk (fun _ => Normal []) (fun _ => response) (fun _ _ => upload)
    "11/3/2026, 10:00:00 AM" true (fun _ _ => false) typeErrorMessage.

Definition request : Request.t :=
  Request.mk ENDPOINT_URL "POST" "Bearer hf_token" "audio/mpeg" [].

End Sample.

(** ** The rest of the component: inline handlers and what the render derives *)

(** [onChange] of the location input: [setLocation(e.target.value)]. *)
Definition handleLocationChange (value : string) : M unit :=
  setLocation value.

(** [onClick] of the Remove File button. *)
Definition handleRemoveFile : M unit :=
  setFile None ;;
  setClassificationResult None.

(** [disabled] of the submit button:
    [!file || !location.trim() || isUploading || isClassifying]. *)
Definition submitDisabled (s : State.t) : bool :=
  negb (match State.file s with Some _ => true | None => false end)
  || negb (truthy (trim (State.location s)))
  || State.isUploading s
  || State.isClassifying s.

(** The text of the submit button. *)
Definition submitLabel (s : State.t) : string :=
  if State.isUploading s then "Uploading..."
  else if State.isClassifying s then "Analyzing Audio..."
  else "Upload & Analyze".

(** [String.prototype.replace(pattern, replacement)] with a string pattern
    and a replacement free of [$]: the first occurrence of the pattern is
    replaced, the rest of the string is kept. *)
Fixpoint replace (pattern replacement s : string) : string :=
  if prefix pattern s
  then (replacement
          ++ substring (String.length pattern)
               (String.length s - String.length pattern) s)%string
  else match s with
       | EmptyString => EmptyString
       | String c s' => String c (replace pattern replacement s')
       end.

(** How a label is shown in a badge: [label.replace('_', ' ')]. *)
Definition displayLabel (label : string) : string := replace "_" " " label.

(** The own properties of the [colors] object literal. *)
Definition colors : list (string * string) :=
  [ ("low", "bg-green-100 text-green-800 border-green-200");
    ("moderate", "bg-yellow-100 text-yellow-800 border-yellow-200");
    ("high", "bg-orange-100 text-orange-800 border-orange-200");
    ("very_high", "bg-red-100 text-red-800 border-red-200") ].

Definition defaultColor : string := "bg-gray-100 text-gray-800 border-gray-200".

Fixpoint ownProperty (object : list (string * string)) (key : string)
    : option string :=
  match object with
  | [] => None
  | (k, v) :: rest => if String.eqb k key then Some v else ownProperty rest key
  end.

(** What [colors[label] || default] evaluates to: a class string, or the
    value [Object.prototype] holds under that name (a function or an object,
    hence truthy). *)
Inductive badgeClass : Type :=
| ClassNames (classes : string)
| Inherited (key : string).

(** [getNoiseLevelColor].  [inherited] tells which names [Object.prototype]
    defines: a name that is not an own property of [colors] is looked up
    there. *)
Definition getNoiseLevelColor (inherited : string -> bool) (label : string)
    : badgeClass :=
  match ownProperty colors label with
  | Some classes => if truthy classes then ClassNames classes
                    else ClassNames defaultColor
  | None => if inherited label then Inherited label
            else ClassNames defaultColor
  end.

(** ** The caller: [App] *)

Module App.

(** What the [onUpload] prop of [App] writes to the console. *)
Inductive logged : Type :=
| Uploading (file : File.t) (location : string).

(** [async (file, location) => { console.log('Uploading:', { file, location }) }]:
    its settlement and its console output. *)
Definition onUpload (file : File.t) (location : string)
    : completion unit * list logged :=
  (Normal tt, [Uploading file location]).

(** A world in which [FileUpload] is mounted by [App]. *)
Definition mount (w : World.t) : World.t :=
  World.mk (World.arrayBuffer w) (World.fetch w)
    (fun file location => fst (onUpload file location))
    (World.toLocaleString w) (World.fileInputMounted w)
    (World.greaterThan w) (World.typeErrorMessage w).

End App.

(** ** Events handled one after another

    An event of the form and the handler it runs; a list of events is
    handled in order, each handler running to completion before the next
    event.  The token is the one of the module, the same for every event;
    each submission meets a world of its own. *)

Inductive action : Type :=
| Drag (eventType : string)
| Drop (files : list File.t)
| FileChange (files : list File.t)
| LocationChange (value : string)
| RemoveFile
| Submit (w : World.t).

Definition handlerOf (token : option string) (a : action) : M unit :=
  match a with
  | Drag eventType => handleDrag eventType
  | Drop files => handleDrop files
  | FileChange files => handleFileChange files
  | LocationChange value => handleLocationChange value
  | RemoveFile => handleRemoveFile
  | Submit w => handleSubmit token w
  end.

Fixpoint handleAll (token : option string) (actions : list action) : M unit :=
  match actions with
  | [] => ret tt
  | a :: rest => handlerOf token a ;; handleAll token rest
  end.

Definition isSubmit (a : action) : bool :=
  match a with
  | Submit _ => true
  | _ => false
  end.

(** One round at the form: pick a file, type the location, submit. *)
Definition round (w : World.t) (f : File.t) (loc : string) : list action :=
  [FileChange [f]; LocationChange loc; Submit w].

(** A round that goes through: an MP3, a location that is not blank, an
    upload that resolves. *)
Definition goesThrough (r : World.t * File.t * string) : Prop :=
  let '(w, f, loc) := r in
  isMp3 f = true /\
  whitespaceOnly loc = false /\
  World.onUpload w f loc = Normal tt.

(** A history entry as [handleSubmit] writes them: an MP3, a location that is
    not blank, a classification (whatever the endpoint answered, or [[]]) and
    a top prediction that is the initial one or was read from an element of
    the classification, then an array. *)
Definition wellFormedEntry (entry : UploadedFileInfo.t) : Prop :=
  (UploadedFileInfo.type entry = "audio/mpeg" \/
   exists stem, UploadedFileInfo.name entry = (stem ++ ".mp3")%string) /\
  whitespaceOnly (UploadedFileInfo.location entry) = false /\
  exists classification top,
    UploadedFileInfo.classification entry = Some classification /\
    UploadedFileInfo.topPrediction entry = Some top /\
    (top = unknownPrediction \/
     exists elements element,
       classification = VArray elements /\
       In element elements /\
       propertyOf element "label" = Some (TopPrediction.label top) /\
       propertyOf element "score" = Some (TopPrediction.confidence top)).


(** ** The Express application of [backend/src/index.js] *)

Module Backend.

(** A JSON object whose members are strings. *)
Definition json : Type := list (string * string).

(** What is written as the body of a response. *)
Inductive payload : Type :=
| Text (s : string)
| Json (v : json)
| NoBody.

(** A request: [path] is the path of its URL, without the query string; the
    names of [headers] are in lower case, as Node delivers them. *)
Module Req.
Record t : Type := mk {
  method : string;
  path : string;
  headers : list (string * string);
  body : list byte
}.
End Req.

(** What Express and Node decide and the program does not: whether the
    pattern of a route matches a path, whether the conditional headers of a
    request match the validators (the ETag) of the body about to be sent,
    and whether [listen] succeeds on a port value. *)
Module Platform.
Record t : Type := mk {
  pathMatches : string -> string -> bool;
  validatorsMatch : Req.t -> payload -> bool;
  listens : option string -> bool
}.
End Platform.

(** The response object: the request it answers, its status code and what
    has been sent. *)
Module Res.
Record t : Type := mk {
  req : Req.t;
  statusCode : Z;
  sent : option payload
}.

(** The response object a handler is given: status 200, nothing sent. *)
Definition create (request : Req.t) : t := mk request 200 None.

(** [res.status(code)]. *)
Definition status (code : Z) (res : t) : t := mk (req res) code (sent res).

(** [req.fresh]: a GET or HEAD whose answer has a status in 200-299 or 304
    and whose conditional headers match. *)
Definition fresh (p : Platform.t) (res : t) (chunk : payload) : bool :=
  (String.eqb (Req.method (req res)) "GET"
   || String.eqb (Req.method (req res)) "HEAD")
  && (((200 <=? statusCode res) && (statusCode res <? 300))
      || (statusCode res =? 304))%Z
  && Platform.validatorsMatch p (req res) chunk.

(** The end of [res.send]: a fresh request is answered 304; a 204 or a 304
    has no body; a HEAD is answered without body. *)
Definition write (p : Platform.t) (chunk : payload) (res : t) : t :=
  let code := if fresh p res chunk then 304%Z else statusCode res in
  let chunk' := if ((code =? 204) || (code =? 304))%Z then NoBody else chunk in
  mk (req res) code
    (Some (if String.eqb (Req.method (req res)) "HEAD" then NoBody else chunk')).

(** [res.send(text)]. *)
Definition send (p : Platform.t) (text : string) (res : t) : t :=
  write p (Text text) res.

(** [res.json(object)]: the object is serialised and sent. *)
Definition json (p : Platform.t) (v : Backend.json) (res : t) : t :=
  write p (Json v) res.
End Res.

Definition handler : Type := Req.t -> Res.t -> Res.t.

Record route : Type := mkRoute {
  verb : string;
  pattern : string;
  handle : handler
}.

(** [app.get("/", ...)] and [app.post("/upload", ...)], in registration
    order. *)
Definition app (p : Platform.t) : list route :=
  [ mkRoute "GET" "/" (fun req res => Res.send p "Hello World!" res);
    mkRoute "POST" "/upload"
      (fun req res =>
         Res.json p [("message", "File uploaded successfully")]
           (Res.status 201 res)) ].

(** A route handles the requests of its method; a GET route also handles
    HEAD when, as here, no route is registered for HEAD. *)
Definition handlesMethod (routeVerb method : string) : bool :=
  String.eqb routeVerb method
  || (String.eqb method "HEAD" && String.eqb routeVerb "GET").

Definition matches (p : Platform.t) (r : route) (req : Req.t) : bool :=
  handlesMethod (verb r) (Req.method req)
  && Platform.pathMatches p (pattern r) (Req.path req).

(** The first registered route that matches answers the request; a request
    no route matches is left to Express ([None]). *)
Definition dispatch (p : Platform.t) (routes : list route) (req : Req.t)
    : option Res.t :=
  match find (fun r => matches p r req) routes with
  | Some r => Some (handle r req (Res.create req))
  | None => None
  end.

(** Start-up.  [PORT] is [process.env.PORT], read once and handed to
    [listen]; the callback that logs and calls [connectDB] (from
    [./lib/db.js]) runs once the server listens. *)
Inductive bootEvent : Type :=
| Listen (port : option string)
| ConsoleLog (message : string)
| ConnectDB.

Record server : Type := mkServer {
  routes : list route;
  accepting : bool;
  boot : list bootEvent
}.

Definition start (p : Platform.t) (PORT : option string) : server :=
  mkServer (app p) (Platform.listens p PORT)
    (Listen PORT ::
     if Platform.listens p PORT
     then [ConsoleLog ("Server running on port " ++ toStringOpt PORT); ConnectDB]
     else []).

(** The answer to a request, from a server that listens. *)
Definition serve (p : Platform.t) (srv : server) (req : Req.t)
    : option Res.t :=
  if accepting srv then dispatch p (routes srv) req else None.

End Backend.

(** ** Further sample inputs *)

Module Scenario.

Definition notFound : Response.t :=
  Response.mk 404 "Not Found" [] (Normal "no such endpoint")
    (Throw (ErrorObject "Unexpected token")).

(** An answer with an empty list of results. *)
Definition nothingHeard : Response.t :=
  Response.mk 200 "OK" [] (Normal "[]") (Normal (VArray [])).

(** An answer whose body is [null]. *)
Definition nullBody : Response.t :=
  Response.mk 200 "OK" [] (Normal "null") (Normal VNull).

(** An answer whose body is an object, not a list. *)
Definition errorObject : Response.t :=
  Response.mk 200 "OK" [] (Normal "")
    (Normal (VObject (Member "error" (VString "Model not ready") NoMember))).

(** A world in which the bytes of a file cannot be read. *)
Definition unreadable : World.t :=
  World.mk (fun _ => Throw (ErrorObject "The file could not be read"))
    (fun _ => Normal Sample.classified) (fun _ _ => Normal tt)
    "11/3/2026, 10:00:00 AM" true (fun _ _ => false) Sample.typeErrorMessage.

(** Express and Node on the inputs of the examples: the patterns match the
    paths equal to them, [If-None-Match: *] matches any body, and [listen]
    throws on the port 99999, which is out of range. *)
Definition platform : Backend.Platform.t :=
  Backend.Platform.mk String.eqb
    (fun req _ =>
       existsb (fun h => String.eqb (fst h) "if-none-match" && String.eqb (snd h) "*")
         (Backend.Req.headers req))
    (fun port =>
       match port with
       | Some value => negb (String.eqb value "99999")
       | None => true
       end).

End Scenario.

(** ** Proof automation *)

(** Case analysis on what the environment answers, in the order
    [classifyAudio] asks. *)
Ltac world_case :=
  match goal with
  | |- context [truthyOpt ?x] => destruct (truthyOpt x) eqn:?
  | |- context [World.arrayBuffer ?w ?f] =>
      destruct (World.arrayBuffer w f) eqn:?
  | |- context [World.fetch ?w ?r] => destruct (World.fetch w r) eqn:?
  | |- context [Response.ok ?r] => destruct (Response.ok r) eqn:?
  | |- context [Response.text ?r] => destruct (Response.text r) eqn:?
  | |- context [(Response.status ?r =? 503)%Z] =>
      destruct (Response.status r =? 503)%Z eqn:?
  | |- context [Response.json ?r] => destruct (Response.json r) eqn:?
  end.

Ltac js_cbn :=
  cbn -[numberToString String.append truthyOpt Response.ok Z.eqb].

Ltac run_classify :=
  unfold classifyAudio, try_finally, try_catch, bind, throw, ret, emit, await,
    setIsClassifying, setClassificationResult, modify;
  repeat (js_cbn; world_case);
  js_cbn.

(** Run [classifyAudio] up to the response of the endpoint. *)
Ltac reach_response Htoken Hbytes Hfetch :=
  unfold classifyAudio, try_finally, try_catch, bind, throw, ret, emit, await,
    setIsClassifying, setClassificationResult, modify;
  js_cbn; rewrite Htoken; js_cbn; rewrite Hbytes; js_cbn;
  unfold endpointRequest in Hfetch; rewrite Hfetch; js_cbn.

(** * Properties *)

(** ** Strings *)

Module JsFacts.

Lemma length_app (p q : string) :
  String.length (p ++ q) = (String.length p + String.length q)%nat.
Proof.
  induction p as [|c p IH]; simpl; [reflexivity | now rewrite IH].
Qed.

Lemma substring_all (q : string) : substring 0 (String.length q) q = q.
Proof.
  induction q as [|c q IH]; simpl; [reflexivity | now rewrite IH].
Qed.

Lemma substring_skip (p q : string) :
  substring (String.length p) (String.length q) (p ++ q) = q.
Proof.
  induction p as [|c p IH]; simpl; [apply substring_all | exact IH].
Qed.

Lemma substring_split (s : string) :
  forall m, (m <= String.length s)%nat ->
  s = (substring 0 m s ++ substring m (String.length s - m) s)%string.
Proof.
  induction s as [|c s IH]; intros [|m] Hm; simpl in *.
  - reflexivity.
  - lia.
  - now rewrite substring_all.
  - f_equal. apply IH. lia.
Qed.

(** [endsWith] holds exactly of the strings that are some stem followed by
    the suffix. *)
Lemma endsWith_iff (s suffix : string) :
  endsWith s suffix = true <-> exists stem, s = (stem ++ suffix)%string.
Proof.
  unfold endsWith, strlen. split.
  - remember (String.length suffix) as k eqn:Hk.
    destruct (Nat.leb_spec k (String.length s)) as [Hle|]; [|discriminate].
    intros H. apply String.eqb_eq in H.
    exists (substring 0 (String.length s - k) s).
    rewrite <- H.
    pose proof (substring_split s (String.length s - k)) as Hs.
    replace (String.length s - (String.length s - k))%nat with k in Hs by lia.
    apply Hs. lia.
  - intros [stem ->]. rewrite length_app.
    replace (String.length suffix <=? String.length stem + String.length suffix)%nat
      with true by (symmetry; apply Nat.leb_le; lia).
    replace (String.length stem + String.length suffix - String.length suffix)%nat
      with (String.length stem) by lia.
    rewrite substring_skip. apply String.eqb_refl.
Qed.

Lemma trimStart_whitespaceOnly (s : string) :
  whitespaceOnly (trimStart s) = whitespaceOnly s.
Proof.
  induction s as [|c s IH]; simpl; [reflexivity|].
  destruct (isWhiteSpace c) eqn:Hc; simpl; [exact IH | now rewrite Hc].
Qed.

Lemma trimEnd_empty_iff (s : string) :
  trimEnd s = "" <-> whitespaceOnly s = true.
Proof.
  induction s as [|c s IH]; simpl; [tauto|].
  destruct (trimEnd s) eqn:Ht, (isWhiteSpace c); simpl; split;
    try discriminate; try tauto; intros H.
  apply IH in H. discriminate.
Qed.

(** [!location.trim()] holds exactly of the empty and the whitespace-only
    strings. *)
Lemma trim_falsy_iff (s : string) :
  truthy (trim s) = false <-> whitespaceOnly s = true.
Proof.
  unfold truthy, trim. rewrite negb_false_iff, String.eqb_eq.
  rewrite trimEnd_empty_iff. now rewrite trimStart_whitespaceOnly.
Qed.

Lemma trim_truthy_iff (s : string) :
  truthy (trim s) = true <-> whitespaceOnly s = false.
Proof.
  rewrite <- !not_true_iff_false, <- trim_falsy_iff.
  destruct (truthy (trim s)); split; congruence.
Qed.

End JsFacts.

(** ** Runs of [classifyAudio] *)

(** The outcome and the effects of [classifyAudio] do not depend on the state
    it is called in, and all it leaves in the state is the cleared busy flag
    and the live result. *)
Lemma classifyAudio_run
    (token : option string) (w : World.t) (f : File.t) (s : State.t) :
  classifyAudio token w f s =
  (classificationOf token w f, afterClassify s (classificationOf token w f),
   classifyTrace token w f).
Proof.
  unfold classificationOf, classifyTrace, outcomeOf, traceOf, afterClassify.
  run_classify; reflexivity.
Qed.

(** [classifyAudio] awaits no operation of its own ... *)
Lemma classifyTrace_spans (token : option string) (w : World.t) (f : File.t) :
  spans (classifyTrace token w f) = [].
Proof.
  unfold classifyTrace, traceOf. run_classify; reflexivity.
Qed.

(** ... and every way it fails goes through its [catch]. *)
Lemma classifyAudio_throws_wrapped
    (token : option string) (w : World.t) (f : File.t) (e : thrown) :
  classificationOf token w f = Throw e ->
  exists reason, e = ErrorObject ("Classification failed: " ++ reason).
Proof.
  unfold classificationOf, outcomeOf. run_classify; intros H;
    inversion H; subst; eexists; reflexivity.
Qed.


Lemma classifyTrace_never_clears_input
    (token : option string) (w : World.t) (f : File.t) :
  ~ In ClearFileInput (classifyTrace token w f).
Proof.
  unfold classifyTrace, traceOf. run_classify; intros H;
    repeat (destruct H as [H|H]; [discriminate H|]); exact H.
Qed.

Lemma spans_app (t1 t2 : list event) : spans (t1 ++ t2) = spans t1 ++ spans t2.
Proof. apply filter_app. Qed.

Lemma uploadCalls_spans (t : list event) : uploadCalls (spans t) = uploadCalls t.
Proof.
  induction t as [|e t IH]; [reflexivity|].
  destruct e as [| |[]|[]| | | | | |]; simpl; rewrite ?IH; reflexivity.
Qed.

Lemma uploadCalls_app (t1 t2 : list event) :
  uploadCalls (t1 ++ t2) = uploadCalls t1 ++ uploadCalls t2.
Proof.
  induction t1 as [|e t1 IH]; [reflexivity|].
  destruct e as [| |[]|[]| | | | | |]; simpl; rewrite ?IH; reflexivity.
Qed.


(** ** The ranking on results of the declared type *)

Lemma Qgtb_true (a b : Q) : Qgtb a b = true <-> (b < a)%Q.
Proof.
  unfold Qgtb. rewrite negb_true_iff, <- not_true_iff_false, Qle_bool_iff.
  split; [apply Qnot_le_lt | apply Qlt_not_le].
Qed.

Lemma Qgtb_false (a b : Q) : Qgtb a b = false <-> (a <= b)%Q.
Proof.
  unfold Qgtb. rewrite negb_false_iff. apply Qle_bool_iff.
Qed.

(** On results of the declared type the callback is [higherScore]. *)
Lemma scoreCallback_ofResult (w : World.t) (max current : ClassificationResult.t) :
  scoreCallback w (ofResult max) (ofResult current)
  = Normal (ofResult (higherScore max current)).
Proof.
  unfold scoreCallback, higherScore. cbn.
  destruct (Qgtb _ _); reflexivity.
Qed.

Lemma reduceFrom_ofResults
    (w : World.t) (xs : list ClassificationResult.t) (x : ClassificationResult.t) :
  reduceFrom (scoreCallback w) (ofResult x) (map ofResult xs)
  = Normal (ofResult (fold_left higherScore xs x)).
Proof.
  revert x. induction xs as [|y xs IH]; intros x; [reflexivity|].
  cbn [map reduceFrom fold_left]. rewrite scoreCallback_ofResult.
  cbn [andThen]. apply IH.
Qed.

(** On a list of results of the declared type the ranking never throws: it
    assigns nothing for the empty list, and otherwise the label and the score
    of the result the scan with [higherScore] ends on. *)
Lemma rank_ofResults (w : World.t) (l : list ClassificationResult.t) :
  rank w (ofResults l)
  = Normal match reduce higherScore l with
           | Normal top =>
               Some (TopPrediction.mk (VString (ClassificationResult.label top))
                       (VNumber (ClassificationResult.score top)))
           | Throw _ => None
           end.
Proof.
  destruct l as [|x xs]; [reflexivity|].
  unfold rank, ofResults, getProperty.
  cbn [map propertyOf String.eqb Ascii.eqb Bool.eqb andThen List.length].
  assert (Hlen : greater w
                   (VNumber (inject_Z (Z.of_nat (S (List.length (map ofResult xs))))))
                   (VNumber 0) = true).
  { apply Qgtb_true. unfold Qlt. cbn. lia. }
  cbn [String.eqb Ascii.eqb Bool.eqb] in *.
  rewrite Hlen. cbn [callReduce]. rewrite reduceFrom_ofResults.
  reflexivity.
Qed.

(** ** Runs of [handleSubmit] *)

Lemma handleSubmit_guarded (token : option string) (w : World.t) (s : State.t) :
  State.file s = None \/ whitespaceOnly (State.location s) = true ->
  handleSubmit token w s =
  (Normal tt,
   withError
     (Some match State.file s with
           | None => "Please select a file to upload"
           | Some _ => "Please enter a location"
           end) s,
   [PreventDefault]).
Proof.
  intros H. unfold handleSubmit.
  destruct (State.file s) as [f|]; [|reflexivity].
  destruct H as [H|H]; [discriminate|].
  apply JsFacts.trim_falsy_iff in H. rewrite H. reflexivity.
Qed.

Lemma handleSubmit_run
    (token : option string) (w : World.t) (s : State.t) (f : File.t) :
  State.file s = Some f ->
  whitespaceOnly (State.location s) = false ->
  let loc := State.location s in
  let c := classificationOf token w f in
  handleSubmit token w s =
  match World.onUpload w f loc with
  | Normal _ =>
      (Normal tt,
       State.mk None "" false false (classificationError w c)
         (State.dragActive s)
         (UploadedFileInfo.mk (File.name f) (File.size f) (File.type f)
            (File.lastModified f) loc (World.toLocaleString w)
            (Some (fst (rankedLocals w c))) (Some (snd (rankedLocals w c)))
          :: State.uploadedFiles s)
         None,
       classificationPhase token w f ++
       Started (Upload f loc) :: Settled (Upload f loc) true ::
       (if World.fileInputMounted w then [ClearFileInput] else []))
  | Throw e =>
      (Normal tt,
       State.mk (Some f) loc false false
         (Some (messageOr e "Failed to upload file")) (State.dragActive s)
         (State.uploadedFiles s)
         (match c with
          | Normal result => fromNullable result
          | Throw _ => None
          end),
       classificationPhase token w f ++
       [Started (Upload f loc); Settled (Upload f loc) false])
  end.
Proof.
  intros Hf Hloc loc c. subst loc c.
  apply JsFacts.trim_truthy_iff in Hloc.
  unfold handleSubmit. rewrite Hf, Hloc.
  unfold classifyAndRank, classificationCaught, awaiting, try_finally,
    try_catch, bind, call, await, emit, ret, setIsUploading, setError,
    setUploadedFiles, setFile, setLocation, setClassificationResult, modify,
    classificationPhase, classificationError, rankedLocals, innerFailure.
  cbn -[classifyAudio rank String.append].
  rewrite classifyAudio_run.
  destruct (classificationOf token w f) as [v|e];
    cbn -[rank String.append];
    [destruct (rank w v) as [[prediction|]|e]; cbn -[String.append]|];
    destruct (World.onUpload w f (State.location s)) as [[]|e'];
    cbn -[String.append];
    try destruct (World.fileInputMounted w);
    cbn -[String.append];
    rewrite <- ?app_assoc; cbn -[String.append]; rewrite ?Hf; reflexivity.
Qed.

(** Where the endpoint answered a list of results of the declared type. *)
Lemma rankedLocals_ofResults (w : World.t) (l : list ClassificationResult.t) :
  rankedLocals w (Normal (ofResults l))
  = (ofResults l,
     match reduce higherScore l with
     | Normal top =>
         TopPrediction.mk (VString (ClassificationResult.label top))
           (VNumber (ClassificationResult.score top))
     | Throw _ => unknownPrediction
     end)
  /\ innerFailure w (Normal (ofResults l)) = None.
Proof.
  unfold rankedLocals, innerFailure. rewrite rank_ofResults.
  destruct (reduce higherScore l); split; reflexivity.
Qed.

(** ** The guards of [handleSubmit] *)

(** C9.  When no file is selected, or a file is selected and the location is
    empty or consists of white space only, [handleSubmit] returns normally
    having only set the error cell: to 'Please select a file to upload' in the
    first case and to 'Please enter a location' in the second.  No other cell
    changes (so the history [uploadedFiles] is as before), and apart from
    [preventDefault] the handler has no effect: [classifyAudio] is not called,
    no request is sent and [onUpload] is not invoked. *)
Theorem handleSubmit_guards_preconditions
    (token : option string) (w : World.t) (s : State.t) :
  State.file s = None \/ whitespaceOnly (State.location s) = true ->
  let r := handleSubmit token w s in
  outcomeOf r = Normal tt /\
  State.error (stateOf r) =
    Some match State.file s with
         | None => "Please select a file to upload"
         | Some _ => "Please enter a location"
         end /\
  stateOf r = withError (State.error (stateOf r)) s /\
  State.uploadedFiles (stateOf r) = State.uploadedFiles s /\
  traceOf r = [PreventDefault] /\
  spans (traceOf r) = [] /\
  fetchRequests (traceOf r) = [] /\
  uploadCalls (traceOf r) = [].
Proof.
  intros H r. subst r. rewrite (handleSubmit_guarded token w s H).
  cbn. repeat split; reflexivity.
Qed.

Lemma handleSubmit_guards_preconditions_witness :
  State.error (stateOf (handleSubmit None
                          (Sample.world (Throw NonError) (Normal tt))
                          State.initial))
  = Some "Please select a file to upload".
Proof.
  exact (proj1 (proj2
    (handleSubmit_guards_preconditions None
       (Sample.world (Throw NonError) (Normal tt)) State.initial
       (or_introl eq_refl)))).
Defined.

(** ** The history list *)

(** C2.  A successful submission (a file is selected, the location is not
    blank, [onUpload] resolves) changes the history only by prepending one
    entry: whatever the list [prev] was, it is [[newEntry] ++ prev] afterwards,
    where [newEntry] describes the submitted file and location. *)
Theorem successful_submission_prepends_one_entry
    (token : option string) (w : World.t) (s : State.t) (f : File.t)
    (prev : list UploadedFileInfo.t) :
  State.file s = Some f ->
  whitespaceOnly (State.location s) = false ->
  World.onUpload w f (State.location s) = Normal tt ->
  State.uploadedFiles s = prev ->
  exists newEntry,
    State.uploadedFiles (stateOf (handleSubmit token w s)) = [newEntry] ++ prev /\
    UploadedFileInfo.name newEntry = File.name f /\
    UploadedFileInfo.size newEntry = File.size f /\
    UploadedFileInfo.type newEntry = File.type f /\
    UploadedFileInfo.lastModified newEntry = File.lastModified f /\
    UploadedFileInfo.location newEntry = State.location s /\
    UploadedFileInfo.uploadTime newEntry = World.toLocaleString w.
Proof.
  intros Hf Hloc Hup <-.
  rewrite (handleSubmit_run token w s f Hf Hloc). cbv zeta. rewrite Hup.
  eexists. cbn. repeat split; reflexivity.
Qed.

Lemma successful_submission_prepends_one_entry_witness :
  exists newEntry,
    State.uploadedFiles
      (stateOf (handleSubmit (Some "hf_token")
                  (Sample.world (Normal Sample.classified) (Normal tt))
                  Sample.ready))
    = [newEntry] ++ [] /\
    UploadedFileInfo.name newEntry = "street.mp3" /\
    UploadedFileInfo.size newEntry = 2048%Z /\
    UploadedFileInfo.type newEntry = "audio/mpeg" /\
    UploadedFileInfo.lastModified newEntry = 1700000000000%Z /\
    UploadedFileInfo.location newEntry = "Downtown Park" /\
    UploadedFileInfo.uploadTime newEntry = "11/3/2026, 10:00:00 AM".
Proof.
  exact (successful_submission_prepends_one_entry (Some "hf_token")
           (Sample.world (Normal Sample.classified) (Normal tt))
           Sample.ready Sample.song [] eq_refl eq_refl eq_refl eq_refl).
Defined.

(** ** Resetting the form *)

(** C10.  After a successful submission the pending file is null, the
    location is the empty string and the live classification result is null.
    Of the eight state cells the handler leaves [dragActive] as it was; the
    cells it writes are those three, the error, the two busy flags (both
    false at the end) and the history. *)
Theorem successful_submission_resets_form
    (token : option string) (w : World.t) (s : State.t) (f : File.t) :
  State.file s = Some f ->
  whitespaceOnly (State.location s) = false ->
  World.onUpload w f (State.location s) = Normal tt ->
  let s' := stateOf (handleSubmit token w s) in
  State.file s' = None /\
  State.location s' = "" /\
  State.classificationResult s' = None /\
  State.dragActive s' = State.dragActive s /\
  State.isUploading s' = false /\
  State.isClassifying s' = false /\
  s' = State.mk None "" false false (State.error s') (State.dragActive s)
         (State.uploadedFiles s') None.
Proof.
  intros Hf Hloc Hup.
  rewrite (handleSubmit_run token w s f Hf Hloc). cbv zeta. rewrite Hup.
  cbn. repeat split; reflexivity.
Qed.

Lemma successful_submission_resets_form_witness :
  State.file
    (stateOf (handleSubmit (Some "hf_token")
                (Sample.world (Normal Sample.classified) (Normal tt))
                Sample.ready))
  = None.
Proof.
  exact (proj1
    (successful_submission_resets_form (Some "hf_token")
       (Sample.world (Normal Sample.classified) (Normal tt))
       Sample.ready Sample.song eq_refl eq_refl eq_refl)).
Defined.

(** ** Classification failure *)

Lemma uploadCalls_classificationPhase
    (token : option string) (w : World.t) (f : File.t) :
  uploadCalls (classificationPhase token w f) = [].
Proof.
  rewrite <- uploadCalls_spans. unfold classificationPhase.
  change (PreventDefault :: Started (Classification f) :: ?t)
    with ([PreventDefault; Started (Classification f)] ++ t).
  rewrite !spans_app, classifyTrace_spans.
  destruct (innerFailure w (classificationOf token w f)); reflexivity.
Qed.

(** Whatever happens, a submission that passes the guards invokes [onUpload]
    exactly once, with the file and the location of the form. *)
Lemma handleSubmit_uploads_once
    (token : option string) (w : World.t) (s : State.t) (f : File.t) :
  State.file s = Some f ->
  whitespaceOnly (State.location s) = false ->
  uploadCalls (traceOf (handleSubmit token w s)) = [(f, State.location s)].
Proof.
  intros Hf Hloc. rewrite (handleSubmit_run token w s f Hf Hloc). cbv zeta.
  destruct (World.onUpload w f (State.location s)); unfold traceOf; cbn [snd];
    rewrite uploadCalls_app, uploadCalls_classificationPhase;
    [destruct (World.fileInputMounted w)|]; reflexivity.
Qed.

(** C1, as stated, fails: when the classification throws and [onUpload]
    rejects as well, the outer [catch] takes over and no history entry is
    added. *)
Lemma classification_failure_always_recorded_counterexample :
  ~ (forall (token : option string) (w : World.t) (s : State.t) (f : File.t)
            (e : thrown),
       State.file s = Some f ->
       whitespaceOnly (State.location s) = false ->
       classificationOf token w f = Throw e ->
       let r := handleSubmit token w s in
       uploadCalls (traceOf r) = [(f, State.location s)] /\
       exists entry,
         State.uploadedFiles (stateOf r) = entry :: State.uploadedFiles s /\
         UploadedFileInfo.topPrediction entry
         = Some (TopPrediction.mk (VString "unknown") (VNumber 0))).
Proof.
  intros claim.
  destruct (claim None
              (Sample.world (Throw NonError)
                 (Throw (ErrorObject "Upload failed")))
              Sample.ready Sample.song
              (ErrorObject
                 "Classification failed: Hugging Face API token is not configured")
              eq_refl eq_refl eq_refl)
    as [_ [entry [Hhistory _]]].
  discriminate Hhistory.
Qed.

(** C1, amended.  For a submission with a selected file and a non-blank
    location in which the classification call throws, [handleSubmit] still
    invokes [onUpload], once, with that file and location.  If [onUpload]
    resolves, one entry is prepended to the history, with an empty
    classification list and the top prediction 'unknown' with confidence 0,
    and the classification error is what the error cell shows.  If [onUpload]
    rejects, the outer [catch] sets the error cell to the message of the
    rejection ('Failed to upload file' when what was thrown is not an
    [Error]) and no history entry is added. *)
Theorem classification_failure_does_not_block_upload
    (token : option string) (w : World.t) (s : State.t) (f : File.t)
    (e : thrown) :
  State.file s = Some f ->
  whitespaceOnly (State.location s) = false ->
  classificationOf token w f = Throw e ->
  let r := handleSubmit token w s in
  uploadCalls (traceOf r) = [(f, State.location s)] /\
  (World.onUpload w f (State.location s) = Normal tt ->
   exists entry,
     State.uploadedFiles (stateOf r) = entry :: State.uploadedFiles s /\
     UploadedFileInfo.name entry = File.name f /\
     UploadedFileInfo.location entry = State.location s /\
     UploadedFileInfo.classification entry = Some (VArray []) /\
     UploadedFileInfo.topPrediction entry
     = Some (TopPrediction.mk (VString "unknown") (VNumber 0)) /\
     State.error (stateOf r) =
       Some ("Audio classification failed: " ++ messageOr e "Unknown error")%string) /\
  (forall e', World.onUpload w f (State.location s) = Throw e' ->
   State.uploadedFiles (stateOf r) = State.uploadedFiles s /\
   State.error (stateOf r)
   = Some match e' with
          | ErrorObject message => message
          | NonError => "Failed to upload file"
          end).
Proof.
  intros Hf Hloc Hc r. subst r. split; [|split].
  - now apply handleSubmit_uploads_once.
  - intros Hup. rewrite (handleSubmit_run token w s f Hf Hloc). cbv zeta.
    rewrite Hup, Hc. eexists. cbn -[String.append].
    repeat split; reflexivity.
  - intros e' Hup. rewrite (handleSubmit_run token w s f Hf Hloc). cbv zeta.
    rewrite Hup. destruct e'; split; reflexivity.
Qed.

Lemma classification_failure_does_not_block_upload_witness :
  uploadCalls
    (traceOf (handleSubmit None (Sample.world (Throw NonError) (Normal tt))
                Sample.ready))
  = [(Sample.song, "Downtown Park")].
Proof.
  exact (proj1
    (classification_failure_does_not_block_upload None
       (Sample.world (Throw NonError) (Normal tt))
       Sample.ready Sample.song
       (ErrorObject
          "Classification failed: Hugging Face API token is not configured")
       eq_refl eq_refl eq_refl)).
Defined.

Example upload_rejected_after_failed_classification :
  let r := handleSubmit None
             (Sample.world (Throw NonError) (Throw (ErrorObject "Upload failed")))
             Sample.ready in
  State.uploadedFiles (stateOf r) = [] /\
  State.error (stateOf r) = Some "Upload failed".
Proof. split; reflexivity. Qed.

(** ** The top prediction *)

(** The scan of [reduce] with [higherScore] ends on the first element of
    maximal score: everything before it scores strictly less, nothing after
    it scores more. *)
Lemma reduce_higherScore_first_max
    (xs : list ClassificationResult.t) (x : ClassificationResult.t) :
  let top := fold_left higherScore xs x in
  exists before after,
    x :: xs = before ++ top :: after /\
    (forall y, In y before ->
       (ClassificationResult.score y < ClassificationResult.score top)%Q) /\
    (forall y, In y after ->
       (ClassificationResult.score y <= ClassificationResult.score top)%Q).
Proof.
  induction xs as [|y xs IH] using rev_ind; cbv zeta.
  - exists [], []. cbn. repeat split; intros ? [].
  - rewrite fold_left_app. cbn [fold_left].
    destruct IH as (before & after & Hsplit & Hbefore & Hafter).
    set (top := fold_left higherScore xs x) in *.
    assert (Hstep : higherScore top y =
                    if Qgtb (ClassificationResult.score y)
                         (ClassificationResult.score top)
                    then y else top) by reflexivity.
    rewrite Hstep. clear Hstep.
    destruct (Qgtb (ClassificationResult.score y) (ClassificationResult.score top))
      eqn:Hgt.
    + apply Qgtb_true in Hgt.
      exists (x :: xs), []. split; [reflexivity|]. split; [|intros ? []].
      intros z Hz. rewrite Hsplit in Hz.
      apply in_app_or in Hz. destruct Hz as [Hz|[<-|Hz]].
      * eapply Qlt_trans; [apply Hbefore, Hz | exact Hgt].
      * exact Hgt.
      * eapply Qle_lt_trans; [apply Hafter, Hz | exact Hgt].
    + apply Qgtb_false in Hgt.
      exists before, (after ++ [y]). split; [|split].
      * change (x :: xs ++ [y]) with ((x :: xs) ++ [y]).
        rewrite Hsplit, <- app_assoc. reflexivity.
      * exact Hbefore.
      * intros z Hz. apply in_app_or in Hz.
        destruct Hz as [Hz|[<-|[]]]; [apply Hafter, Hz | exact Hgt].
Qed.

Lemma classifyAndRank_outcome
    (token : option string) (w : World.t) (f : File.t) (s : State.t) :
  outcomeOf (classifyAndRank token w f s)
  = Normal (rankedLocals w (classificationOf token w f)).
Proof.
  unfold classifyAndRank, classificationCaught, awaiting, try_catch, bind,
    call, emit, ret, setError, modify, outcomeOf, rankedLocals.
  cbn -[classifyAudio rank String.append].
  rewrite classifyAudio_run.
  destruct (classificationOf token w f) as [v|e]; cbn -[rank String.append];
    [|reflexivity].
  destruct (rank w v) as [[prediction|]|e]; reflexivity.
Qed.

(** C3.  When [classifyAudio] returns a non-empty list (of results of the
    declared type), the top prediction [handleSubmit] computes from it, and
    records in the new history entry once the upload went through, carries
    the label and the score of an element [top] of that list whose score is
    at least the score of every element; [top] is the first such element in
    list order (every element before it scores strictly less). *)
Theorem topPrediction_is_first_maximum
    (token : option string) (w : World.t) (f : File.t)
    (classification : list ClassificationResult.t) :
  classificationOf token w f = Normal (ofResults classification) ->
  classification <> [] ->
  exists top before after,
    classification = before ++ top :: after /\
    (forall y, In y classification ->
       (ClassificationResult.score y <= ClassificationResult.score top)%Q) /\
    (forall y, In y before ->
       (ClassificationResult.score y < ClassificationResult.score top)%Q) /\
    (forall s,
       outcomeOf (classifyAndRank token w f s)
       = Normal (ofResults classification,
                 TopPrediction.mk (VString (ClassificationResult.label top))
                   (VNumber (ClassificationResult.score top)))) /\
    (forall s,
       State.file s = Some f ->
       whitespaceOnly (State.location s) = false ->
       World.onUpload w f (State.location s) = Normal tt ->
       exists entry history,
         State.uploadedFiles (stateOf (handleSubmit token w s))
         = entry :: history /\
         UploadedFileInfo.classification entry
         = Some (ofResults classification) /\
         UploadedFileInfo.topPrediction entry =
           Some (TopPrediction.mk (VString (ClassificationResult.label top))
                   (VNumber (ClassificationResult.score top)))).
Proof.
  intros Hc Hne.
  destruct classification as [|x xs]; [congruence|].
  destruct (reduce_higherScore_first_max xs x)
    as (before & after & Hsplit & Hbefore & Hafter).
  destruct (rankedLocals_ofResults w (x :: xs)) as [Hlocals _].
  cbn [reduce] in Hlocals.
  exists (fold_left higherScore xs x), before, after.
  split; [exact Hsplit|]. split; [|split; [exact Hbefore|split]].
  - intros y Hy. rewrite Hsplit in Hy.
    apply in_app_or in Hy. destruct Hy as [Hy|[<-|Hy]].
    + apply Qlt_le_weak, Hbefore, Hy.
    + apply Qle_refl.
    + apply Hafter, Hy.
  - intros s. rewrite classifyAndRank_outcome, Hc, Hlocals. reflexivity.
  - intros s Hf Hloc Hup.
    rewrite (handleSubmit_run token w s f Hf Hloc). cbv zeta.
    rewrite Hup, Hc, Hlocals.
    eexists _, _. cbn. repeat split; reflexivity.
Qed.

Lemma topPrediction_is_first_maximum_witness :
  exists top,
    In top Sample.scores /\
    forall s,
      outcomeOf (classifyAndRank (Some "hf_token")
                   (Sample.world (Normal Sample.classified) (Normal tt))
                   Sample.song s)
      = Normal (ofResults Sample.scores,
                TopPrediction.mk (VString (ClassificationResult.label top))
                  (VNumber (ClassificationResult.score top))).
Proof.
  destruct (topPrediction_is_first_maximum (Some "hf_token")
              (Sample.world (Normal Sample.classified) (Normal tt))
              Sample.song Sample.scores eq_refl)
    as (top & before & after & Hsplit & _ & _ & Hrank & _).
  - discriminate.
  - exists top. split; [rewrite Hsplit; apply in_elt | exact Hrank].
Defined.

Example topPrediction_of_sample :
  option_map UploadedFileInfo.topPrediction
    (hd_error
       (State.uploadedFiles
          (stateOf (handleSubmit (Some "hf_token")
                      (Sample.world (Normal Sample.classified) (Normal tt))
                      Sample.ready))))
  = Some (Some (TopPrediction.mk (VString "high") (VNumber (7 # 10)))).
Proof. reflexivity. Qed.

(** ** Offering a file *)

Lemma isMp3_iff (f : File.t) : isMp3 f = true <-> mp3Offered f.
Proof.
  unfold isMp3, mp3Offered.
  rewrite orb_true_iff, String.eqb_eq, JsFacts.endsWith_iff. reflexivity.
Qed.

(** C4.  For the file offered by a drop or by the file picker (the first of
    the event's file list), the file is accepted, that is stored as the
    pending file with the error message and the live classification result
    cleared, if and only if its MIME type is 'audio/mpeg' or its name ends
    with '.mp3'.  Otherwise the pending file stays what it was and the error
    is 'Please upload an MP3 file'. *)
Theorem offered_file_accepted_iff_mp3
    (f : File.t) (others : list File.t) (s : State.t) :
  let dropped := stateOf (handleDrop (f :: others) s) in
  let picked := stateOf (handleFileChange (f :: others) s) in
  (accepted f dropped <-> mp3Offered f) /\
  (accepted f picked <-> mp3Offered f) /\
  (~ mp3Offered f ->
   State.file dropped = State.file s /\
   State.error dropped = Some "Please upload an MP3 file" /\
   State.file picked = State.file s /\
   State.error picked = Some "Please upload an MP3 file").
Proof.
  cbv zeta. rewrite <- isMp3_iff.
  unfold handleDrop, handleFileChange, accepted, stateOf, bind, emit, ret,
    setDragActive, setFile, setError, setClassificationResult, modify.
  cbn -[isMp3]. destruct (isMp3 f); cbn.
  - repeat split; solve [reflexivity | congruence].
  - split; [|split].
    + split; [intros (_ & Herror & _); discriminate | discriminate].
    + split; [intros (_ & Herror & _); discriminate | discriminate].
    + intros _. repeat split.
Qed.

Lemma offered_file_accepted_iff_mp3_witness :
  State.file (stateOf (handleDrop [Sample.notes] Sample.ready))
    = Some Sample.song /\
  State.error (stateOf (handleDrop [Sample.notes] Sample.ready))
    = Some "Please upload an MP3 file" /\
  accepted Sample.recording
    (stateOf (handleFileChange [Sample.recording] Sample.ready)).
Proof.
  assert (Hnotes : ~ mp3Offered Sample.notes).
  { intros H. apply isMp3_iff in H. discriminate H. }
  assert (Hrecording : mp3Offered Sample.recording).
  { right. exists "field-recording". reflexivity. }
  pose proof (offered_file_accepted_iff_mp3 Sample.notes [] Sample.ready)
    as (_ & _ & Hrejected).
  pose proof (offered_file_accepted_iff_mp3 Sample.recording [] Sample.ready)
    as (_ & Hpicked & _).
  destruct (Hrejected Hnotes) as (Hfile & Herror & _).
  split; [exact Hfile | split; [exact Herror | apply Hpicked, Hrecording]].
Defined.


(** ** The server *)

(** C5, as stated, fails for [GET /]: [res.send] answers a conditional
    request whose validators match (here [If-None-Match: *]) with 304 and no
    body. *)
Lemma routes_answer_unconditionally_counterexample :
  ~ (forall (p : Backend.Platform.t) (PORT : option string)
            (req : Backend.Req.t),
       Backend.Platform.listens p PORT = true ->
       (Backend.Req.method req = "POST" ->
        Backend.Platform.pathMatches p "/upload" (Backend.Req.path req) = true ->
        exists res,
          Backend.serve p (Backend.start p PORT) req = Some res /\
          Backend.Res.statusCode res = 201%Z /\
          Backend.Res.sent res
          = Some (Backend.Json [("message", "File uploaded successfully")])) /\
       (Backend.Req.method req = "GET" ->
        Backend.Platform.pathMatches p "/" (Backend.Req.path req) = true ->
        exists res,
          Backend.serve p (Backend.start p PORT) req = Some res /\
          Backend.Res.statusCode res = 200%Z /\
          Backend.Res.sent res = Some (Backend.Text "Hello World!"))).
Proof.
  intros claim.
  destruct (claim Scenario.platform None
              (Backend.Req.mk "GET" "/" [("if-none-match", "*")] [])
              eq_refl)
    as [_ Hget].
  destruct (Hget eq_refl eq_refl) as (res & Hres & Hstatus & _).
  cbv in Hres. injection Hres as <-. discriminate Hstatus.
Qed.

(** C5, amended.  A request to [POST /upload] is answered with status 201
    and the JSON object [{"message": "File uploaded successfully"}], whatever
    its headers and its body (which is never read).  A request to [GET /] is
    answered with status 200 and the text 'Hello World!', unless it is a
    conditional request whose validators match: it is then answered with
    status 304 and no body. *)
Theorem backend_routes_answer
    (p : Backend.Platform.t) (PORT : option string) (req : Backend.Req.t) :
  Backend.Platform.listens p PORT = true ->
  (Backend.Req.method req = "POST" ->
   Backend.Platform.pathMatches p "/upload" (Backend.Req.path req) = true ->
   Backend.serve p (Backend.start p PORT) req
   = Some (Backend.Res.mk req 201
             (Some (Backend.Json [("message", "File uploaded successfully")]))))
  /\
  (Backend.Req.method req = "GET" ->
   Backend.Platform.pathMatches p "/" (Backend.Req.path req) = true ->
   Backend.serve p (Backend.start p PORT) req
   = Some (if Backend.Platform.validatorsMatch p req (Backend.Text "Hello World!")
           then Backend.Res.mk req 304 (Some Backend.NoBody)
           else Backend.Res.mk req 200 (Some (Backend.Text "Hello World!")))).
Proof.
  intros Hlistens. destruct req as [method path headers body].
  cbn [Backend.Req.method Backend.Req.path].
  unfold Backend.serve, Backend.start.
  cbn [Backend.accepting Backend.routes]. rewrite Hlistens.
  split; intros -> Hpath;
    unfold Backend.dispatch, Backend.app, Backend.matches,
      Backend.handlesMethod; cbn; rewrite Hpath; cbn.
  - reflexivity.
  - unfold Backend.Res.send, Backend.Res.write, Backend.Res.fresh. cbn.
    destruct (Backend.Platform.validatorsMatch p _ _); reflexivity.
Qed.

Lemma backend_routes_answer_witness :
  Backend.serve Scenario.platform (Backend.start Scenario.platform (Some "5000"))
    (Backend.Req.mk "POST" "/upload" [("content-type", "audio/mpeg")] [])
  = Some (Backend.Res.mk
            (Backend.Req.mk "POST" "/upload" [("content-type", "audio/mpeg")] [])
            201
            (Some (Backend.Json [("message", "File uploaded successfully")])))
  /\
  Backend.serve Scenario.platform (Backend.start Scenario.platform (Some "5000"))
    (Backend.Req.mk "GET" "/" [] [])
  = Some (Backend.Res.mk (Backend.Req.mk "GET" "/" [] []) 200
            (Some (Backend.Text "Hello World!"))).
Proof.
  split.
  - exact (proj1
      (backend_routes_answer Scenario.platform (Some "5000")
         (Backend.Req.mk "POST" "/upload" [("content-type", "audio/mpeg")] [])
         eq_refl) eq_refl eq_refl).
  - exact (proj2
      (backend_routes_answer Scenario.platform (Some "5000")
         (Backend.Req.mk "GET" "/" [] []) eq_refl) eq_refl eq_refl).
Defined.

(** ** A 503 from the endpoint *)

(** C6, as stated, fails: [response.text()] is awaited before the status is
    looked at, so a 503 whose body cannot be read is reported as that read
    failure. *)
Lemma service_unavailable_reports_loading_counterexample :
  ~ (forall (token : option string) (w : World.t) (f : File.t) (s : State.t)
            (bytes : list byte) (response : Response.t),
       truthyOpt token = true ->
       World.arrayBuffer w f = Normal bytes ->
       World.fetch w (endpointRequest token bytes) = Normal response ->
       Response.status response = 503%Z ->
       let r := classifyAudio token w f s in
       List.length (fetchRequests (traceOf r)) = 1%nat /\
       exists e, outcomeOf r = Throw e /\ reportsModelLoading e).
Proof.
  intros claim.
  destruct (claim (Some "hf_token")
              (Sample.world (Normal Sample.loadingBodyLost) (Normal tt))
              Sample.song Sample.ready [] Sample.loadingBodyLost
              eq_refl eq_refl eq_refl eq_refl)
    as (_ & e & Hthrown & prefix & Hmessage).
  cbv in Hthrown. injection Hthrown as <-. injection Hmessage as Hmessage.
  assert (Hends : endsWith "Classification failed: network error"
                    "Model is loading, please wait a moment and try again"
                  = true).
  { apply JsFacts.endsWith_iff. exists prefix. exact Hmessage. }
  discriminate Hends.
Qed.

(** C6, amended.  When the endpoint answers a call of [classifyAudio] with
    status 503, exactly one request has been sent (there is no retry) and the
    call throws an [Error].  If the body of the response can be read, the
    message is 'Classification failed: Model is loading, please wait a moment
    and try again'; if reading the body fails, the message reports that
    failure instead. *)
Theorem service_unavailable_not_retried
    (token : option string) (w : World.t) (f : File.t) (s : State.t)
    (bytes : list byte) (response : Response.t) :
  truthyOpt token = true ->
  World.arrayBuffer w f = Normal bytes ->
  World.fetch w (endpointRequest token bytes) = Normal response ->
  Response.status response = 503%Z ->
  let r := classifyAudio token w f s in
  fetchRequests (traceOf r) = [endpointRequest token bytes] /\
  (exists message, outcomeOf r = Throw (ErrorObject message)) /\
  (forall body, Response.text response = Normal body ->
     outcomeOf r =
       Throw (ErrorObject
                "Classification failed: Model is loading, please wait a moment and try again")
     /\ reportsModelLoading
          (ErrorObject
             "Classification failed: Model is loading, please wait a moment and try again")) /\
  (forall e, Response.text response = Throw e ->
     outcomeOf r =
       Throw (ErrorObject ("Classification failed: " ++ messageOr e "Unknown error"))).
Proof.
  intros Htoken Hbytes Hfetch Hstatus r. subst r.
  reach_response Htoken Hbytes Hfetch.
  unfold Response.ok. rewrite Hstatus. js_cbn.
  destruct (Response.text response) as [body|e]; js_cbn;
    rewrite ?Hstatus; js_cbn.
  - split; [reflexivity|]. split; [eexists; reflexivity|].
    split; [|discriminate].
    intros _ _. split; [reflexivity|].
    exists "Classification failed: ". reflexivity.
  - split; [reflexivity|]. split; [eexists; reflexivity|].
    split; [discriminate|].
    intros e' [= <-]. reflexivity.
Qed.

Lemma service_unavailable_not_retried_witness :
  fetchRequests
    (traceOf (classifyAudio (Some "hf_token")
                (Sample.world (Normal Sample.loading) (Normal tt))
                Sample.song Sample.ready))
  = [Sample.request].
Proof.
  exact (proj1
    (service_unavailable_not_retried (Some "hf_token")
       (Sample.world (Normal Sample.loading) (Normal tt))
       Sample.song Sample.ready [] Sample.loading
       eq_refl eq_refl eq_refl eq_refl)).
Defined.

(** ** Sequencing of the two awaited operations *)





(** ** Events handled one after another: the runs *)

Lemma handlerOf_completes (token : option string) (a : action) (s : State.t) :
  outcomeOf (handlerOf token a s) = Normal tt.
Proof.
  destruct a as [ty|files|files|value| |w]; cbn [handlerOf].
  - unfold handleDrag, outcomeOf, bind, emit, ret, setDragActive, modify. cbn.
    destruct (_ || _); [reflexivity|]. destruct (_ =? _)%string; reflexivity.
  - unfold handleDrop, outcomeOf, bind, emit, ret, setDragActive, setFile,
      setError, setClassificationResult, modify.
    destruct files as [|f ?]; cbn -[isMp3]; [reflexivity|].
    destruct (isMp3 f); reflexivity.
  - unfold handleFileChange, outcomeOf, bind, emit, ret, setFile, setError,
      setClassificationResult, modify.
    destruct files as [|f ?]; cbn -[isMp3]; [reflexivity|].
    destruct (isMp3 f); reflexivity.
  - reflexivity.
  - reflexivity.
  - destruct (State.file s) as [f|] eqn:Hf.
    + destruct (whitespaceOnly (State.location s)) eqn:Hloc.
      * rewrite handleSubmit_guarded by (now right). reflexivity.
      * rewrite (handleSubmit_run token w s f Hf Hloc). cbv zeta.
        destruct (World.onUpload w f (State.location s)); reflexivity.
    + rewrite handleSubmit_guarded by (now left). reflexivity.
Qed.

Lemma handleAll_cons
    (token : option string) (a : action) (rest : list action) (s : State.t) :
  stateOf (handleAll token (a :: rest) s)
  = stateOf (handleAll token rest (stateOf (handlerOf token a s))) /\
  traceOf (handleAll token (a :: rest) s)
  = traceOf (handlerOf token a s)
    ++ traceOf (handleAll token rest (stateOf (handlerOf token a s))).
Proof.
  cbn [handleAll]. unfold bind.
  pose proof (handlerOf_completes token a s) as H.
  destruct (handlerOf token a s) as [[r s1] t1]. cbn in H. subst r.
  cbn [stateOf traceOf fst snd].
  destruct (handleAll token rest s1) as [[r2 s2] t2].
  split; reflexivity.
Qed.


(** ** Environment variables *)




(** * Further properties of the code *)

(** ** [classifyAudio] *)

(** X1.  A call of [classifyAudio] sends at most one request, whatever the
    environment answers; a request is sent only with a token and the bytes of
    the file at hand, and it is the POST to the endpoint with the bearer
    token, the content type audio/mpeg and those bytes as body. *)
Theorem classifyAudio_sends_at_most_one_request
    (token : option string) (w : World.t) (f : File.t) (s : State.t) :
  fetchRequests (traceOf (classifyAudio token w f s)) = [] \/
  exists bytes,
    truthyOpt token = true /\
    World.arrayBuffer w f = Normal bytes /\
    fetchRequests (traceOf (classifyAudio token w f s))
    = [Request.mk ENDPOINT_URL "POST" ("Bearer " ++ toStringOpt token)
         "audio/mpeg" bytes].
Proof.
  unfold traceOf. run_classify;
    first [left; reflexivity
          | right; eexists; split; [reflexivity|split; reflexivity]].
Qed.

(** X2.  However a call of [classifyAudio] ends, the busy flag
    [isClassifying] is false afterwards; the live result is the value
    returned ([null] included), or null when the call threw; no other cell of
    the state is touched. *)
Theorem classifyAudio_clears_busy_flag
    (token : option string) (w : World.t) (f : File.t) (s : State.t) :
  let r := classifyAudio token w f s in
  State.isClassifying (stateOf r) = false /\
  State.classificationResult (stateOf r)
  = match outcomeOf r with
    | Normal result => fromNullable result
    | Throw _ => None
    end /\
  State.file (stateOf r) = State.file s /\
  State.location (stateOf r) = State.location s /\
  State.isUploading (stateOf r) = State.isUploading s /\
  State.error (stateOf r) = State.error s /\
  State.dragActive (stateOf r) = State.dragActive s /\
  State.uploadedFiles (stateOf r) = State.uploadedFiles s.
Proof.
  cbv zeta. rewrite classifyAudio_run. cbn. repeat split; reflexivity.
Qed.

(** X3.  [classifyAudio] returns exactly when the token is present, the
    bytes of the file could be read, the request was answered with a status
    in 200-299 and the body of the answer parsed as JSON; what it returns is
    then the parsed body, whatever its shape. *)
Theorem classifyAudio_returns_iff
    (token : option string) (w : World.t) (f : File.t) (s : State.t)
    (result : value) :
  outcomeOf (classifyAudio token w f s) = Normal result <->
  truthyOpt token = true /\
  exists bytes response,
    World.arrayBuffer w f = Normal bytes /\
    World.fetch w (endpointRequest token bytes) = Normal response /\
    Response.ok response = true /\
    Response.json response = Normal result.
Proof.
  split.
  - unfold outcomeOf. run_classify; intros H; try discriminate H.
    injection H as ->. split; [reflexivity|].
    eexists _, _. repeat split; try reflexivity; eassumption.
  - intros (Htoken & bytes & response & Hbytes & Hfetch & Hok & Hjson).
    unfold outcomeOf. reach_response Htoken Hbytes Hfetch.
    rewrite Hok. js_cbn. rewrite Hjson. reflexivity.
Qed.

Lemma classifyAudio_returns_iff_witness :
  outcomeOf (classifyAudio (Some "hf_token")
               (Sample.world (Normal Sample.classified) (Normal tt))
               Sample.song Sample.ready)
  = Normal (ofResults Sample.scores).
Proof.
  apply (proj2
    (classifyAudio_returns_iff (Some "hf_token")
       (Sample.world (Normal Sample.classified) (Normal tt))
       Sample.song Sample.ready (ofResults Sample.scores))).
  split; [reflexivity|].
  exists [], Sample.classified. repeat split; reflexivity.
Defined.

(** X4.  Whatever goes wrong inside [classifyAudio], what it throws is an
    [Error] whose message starts with 'Classification failed: '; the live
    result is then null and the busy flag cleared. *)
Theorem classifyAudio_failure_is_wrapped
    (token : option string) (w : World.t) (f : File.t) (s : State.t)
    (e : thrown) :
  outcomeOf (classifyAudio token w f s) = Throw e ->
  (exists reason, e = ErrorObject ("Classification failed: " ++ reason)) /\
  State.classificationResult (stateOf (classifyAudio token w f s)) = None /\
  State.isClassifying (stateOf (classifyAudio token w f s)) = false.
Proof.
  rewrite classifyAudio_run. unfold outcomeOf, stateOf. cbn [fst snd].
  intros H. split; [now apply (classifyAudio_throws_wrapped token w f)|].
  rewrite H. split; reflexivity.
Qed.

Lemma classifyAudio_failure_is_wrapped_witness :
  exists reason,
    ErrorObject "Classification failed: Hugging Face API token is not configured"
    = ErrorObject ("Classification failed: " ++ reason).
Proof.
  exact (proj1
    (classifyAudio_failure_is_wrapped None
       (Sample.world (Throw NonError) (Normal tt)) Sample.song Sample.ready
       (ErrorObject
          "Classification failed: Hugging Face API token is not configured")
       eq_refl)).
Defined.

(** X5.  When the endpoint answers with a status outside 200-299 other than
    503 and the body of the answer can be read, [classifyAudio] throws
    'Classification failed: Endpoint error: <status> - <statusText>'; one
    request was sent and the body is never parsed as JSON. *)
Theorem classifyAudio_reports_endpoint_error
    (token : option string) (w : World.t) (f : File.t) (s : State.t)
    (bytes : list byte) (response : Response.t) (body : string) :
  truthyOpt token = true ->
  World.arrayBuffer w f = Normal bytes ->
  World.fetch w (endpointRequest token bytes) = Normal response ->
  Response.ok response = false ->
  Response.status response <> 503%Z ->
  Response.text response = Normal body ->
  let r := classifyAudio token w f s in
  outcomeOf r =
    Throw (ErrorObject
             ("Classification failed: Endpoint error: "
                ++ numberToString (Response.status response)
                ++ " - " ++ Response.statusText response)) /\
  fetchRequests (traceOf r) = [endpointRequest token bytes] /\
  ~ In ReadJson (traceOf r).
Proof.
  intros Htoken Hbytes Hfetch Hok Hstatus Hbody r. subst r.
  apply Z.eqb_neq in Hstatus.
  unfold outcomeOf, traceOf. reach_response Htoken Hbytes Hfetch.
  rewrite Hok. js_cbn. rewrite Hbody. js_cbn. rewrite Hstatus. js_cbn.
  repeat split; try reflexivity.
  intros H. repeat (destruct H as [H|H]; [discriminate H|]). exact H.
Qed.

Lemma classifyAudio_reports_endpoint_error_witness :
  outcomeOf (classifyAudio (Some "hf_token")
               (Sample.world (Normal Scenario.notFound) (Normal tt))
               Sample.song Sample.ready)
  = Throw (ErrorObject "Classification failed: Endpoint error: 404 - Not Found").
Proof.
  refine (proj1
    (classifyAudio_reports_endpoint_error (Some "hf_token")
       (Sample.world (Normal Scenario.notFound) (Normal tt))
       Sample.song Sample.ready [] Scenario.notFound "no such endpoint"
       eq_refl eq_refl eq_refl eq_refl _ eq_refl)).
  discriminate.
Defined.

(** X6.  When [fetch] itself rejects (a network error), one request was sent,
    no body is read, and [classifyAudio] throws 'Classification failed: '
    followed by the message of the rejection, or by 'Unknown error' when what
    was thrown is not an [Error]. *)
Theorem classifyAudio_reports_network_error
    (token : option string) (w : World.t) (f : File.t) (s : State.t)
    (bytes : list byte) (e : thrown) :
  truthyOpt token = true ->
  World.arrayBuffer w f = Normal bytes ->
  World.fetch w (endpointRequest token bytes) = Throw e ->
  let r := classifyAudio token w f s in
  outcomeOf r =
    Throw (ErrorObject
             ("Classification failed: "
                ++ match e with
                   | ErrorObject message => message
                   | NonError => "Unknown error"
                   end)) /\
  fetchRequests (traceOf r) = [endpointRequest token bytes] /\
  ~ In ReadText (traceOf r) /\
  ~ In ReadJson (traceOf r).
Proof.
  intros Htoken Hbytes Hfetch r. subst r.
  unfold outcomeOf, traceOf. reach_response Htoken Hbytes Hfetch.
  destruct e; (repeat split; try reflexivity);
    intros H; repeat (destruct H as [H|H]; [discriminate H|]); exact H.
Qed.

Lemma classifyAudio_reports_network_error_witness :
  outcomeOf (classifyAudio (Some "hf_token")
               (Sample.world (Throw NonError) (Normal tt))
               Sample.song Sample.ready)
  = Throw (ErrorObject "Classification failed: Unknown error").
Proof.
  exact (proj1
    (classifyAudio_reports_network_error (Some "hf_token")
       (Sample.world (Throw NonError) (Normal tt))
       Sample.song Sample.ready [] NonError eq_refl eq_refl eq_refl)).
Defined.

(** X7.  When the bytes of the file cannot be read, [classifyAudio] sends no
    request and throws 'Classification failed: ' followed by the reason. *)
Theorem classifyAudio_unreadable_file_sends_nothing
    (token : option string) (w : World.t) (f : File.t) (s : State.t)
    (e : thrown) :
  truthyOpt token = true ->
  World.arrayBuffer w f = Throw e ->
  let r := classifyAudio token w f s in
  outcomeOf r =
    Throw (ErrorObject ("Classification failed: " ++ messageOr e "Unknown error")) /\
  fetchRequests (traceOf r) = [].
Proof.
  intros Htoken Hbytes r. subst r.
  unfold outcomeOf, traceOf, classifyAudio, try_finally, try_catch, bind, throw,
    ret, emit, await, setIsClassifying, setClassificationResult, modify.
  js_cbn. rewrite Htoken. js_cbn. rewrite Hbytes. js_cbn.
  split; reflexivity.
Qed.

Lemma classifyAudio_unreadable_file_sends_nothing_witness :
  fetchRequests
    (traceOf (classifyAudio (Some "hf_token") Scenario.unreadable
                Sample.song Sample.ready))
  = [].
Proof.
  exact (proj2
    (classifyAudio_unreadable_file_sends_nothing (Some "hf_token")
       Scenario.unreadable
       Sample.song Sample.ready (ErrorObject "The file could not be read")
       eq_refl eq_refl)).
Defined.

(** ** [handleSubmit] *)

(** X8.  [handleSubmit] never throws: whatever the state and whatever the
    classification and the upload do, the handler completes normally (no
    rejection escapes it).  Once the guards are passed, both busy flags are
    false when it completes. *)
Theorem handleSubmit_never_throws
    (token : option string) (w : World.t) (s : State.t) :
  let r := handleSubmit token w s in
  outcomeOf r = Normal tt /\
  (forall f,
     State.file s = Some f ->
     whitespaceOnly (State.location s) = false ->
     State.isUploading (stateOf r) = false /\
     State.isClassifying (stateOf r) = false).
Proof.
  cbv zeta. split.
  - exact (handlerOf_completes token (Submit w) s).
  - intros f Hf Hloc. rewrite (handleSubmit_run token w s f Hf Hloc). cbv zeta.
    destruct (World.onUpload w f (State.location s)); split; reflexivity.
Qed.

Lemma handleSubmit_never_throws_witness :
  State.isUploading
    (stateOf (handleSubmit None
                (Sample.world (Throw NonError) (Throw NonError))
                Sample.ready))
  = false.
Proof.
  exact (proj1 (proj2
    (handleSubmit_never_throws None
       (Sample.world (Throw NonError) (Throw NonError)) Sample.ready)
    Sample.song eq_refl eq_refl)).
Defined.

(** X9.  When [onUpload] rejects, the form is not reset: the pending file and
    the location stay, the history is unchanged and the file input is not
    cleared.  The error shown is the message of the rejection, or 'Failed to
    upload file' when what was thrown is not an [Error]; it replaces the
    classification error, if there was one.  The live classification result
    stays on display when the classification had succeeded. *)
Theorem upload_failure_keeps_form
    (token : option string) (w : World.t) (s : State.t) (f : File.t)
    (e : thrown) :
  State.file s = Some f ->
  whitespaceOnly (State.location s) = false ->
  World.onUpload w f (State.location s) = Throw e ->
  let r := handleSubmit token w s in
  State.file (stateOf r) = Some f /\
  State.location (stateOf r) = State.location s /\
  State.uploadedFiles (stateOf r) = State.uploadedFiles s /\
  State.error (stateOf r)
  = Some match e with
         | ErrorObject message => message
         | NonError => "Failed to upload file"
         end /\
  State.classificationResult (stateOf r)
  = match classificationOf token w f with
    | Normal result => fromNullable result
    | Throw _ => None
    end /\
  ~ In ClearFileInput (traceOf r).
Proof.
  intros Hf Hloc Hup r. subst r.
  rewrite (handleSubmit_run token w s f Hf Hloc). cbv zeta. rewrite Hup.
  unfold stateOf, traceOf.
  cbn [fst snd State.file State.location State.uploadedFiles State.error
         State.classificationResult].
  do 3 (split; [reflexivity|]).
  split; [destruct e; reflexivity|]. split; [reflexivity|].
  intros H. apply in_app_or in H. destruct H as [H|H].
  - unfold classificationPhase in H.
    destruct H as [H|[H|H]]; try discriminate H.
    apply in_app_or in H. destruct H as [H|H].
    + exact (classifyTrace_never_clears_input token w f H).
    + destruct H as [H|H]; [discriminate H|].
      destruct (innerFailure w (classificationOf token w f)); [|destruct H].
      destruct H as [H|[]]. discriminate H.
  - repeat (destruct H as [H|H]; [discriminate H|]). exact H.
Qed.

Lemma upload_failure_keeps_form_witness :
  State.error
    (stateOf (handleSubmit (Some "hf_token")
                (Sample.world (Normal Sample.classified) (Throw NonError))
                Sample.ready))
  = Some "Failed to upload file".
Proof.
  exact (proj1 (proj2 (proj2 (proj2
    (upload_failure_keeps_form (Some "hf_token")
       (Sample.world (Normal Sample.classified) (Throw NonError))
       Sample.ready Sample.song NonError eq_refl eq_refl eq_refl))))).
Defined.

(** X10.  [handleSubmit] never loses history: whatever happens, the list
    afterwards is the list before, or the list before with one entry in
    front. *)
Theorem history_only_grows_at_front
    (token : option string) (w : World.t) (s : State.t) :
  let history := State.uploadedFiles (stateOf (handleSubmit token w s)) in
  history = State.uploadedFiles s \/
  exists entry, history = entry :: State.uploadedFiles s.
Proof.
  cbv zeta. destruct (State.file s) as [f|] eqn:Hf.
  - destruct (whitespaceOnly (State.location s)) eqn:Hloc.
    + left. rewrite handleSubmit_guarded by (now right). reflexivity.
    + rewrite (handleSubmit_run token w s f Hf Hloc). cbv zeta.
      destruct (World.onUpload w f (State.location s));
        [right; eexists|left]; reflexivity.
  - left. rewrite handleSubmit_guarded by (now left). reflexivity.
Qed.

(** X11.  When the endpoint returns an empty list and the upload goes
    through, the entry recorded holds the empty list and the top prediction
    'unknown' with confidence 0, as after a failed classification, but no
    error is shown. *)
Theorem empty_classification_recorded_as_unknown
    (token : option string) (w : World.t) (s : State.t) (f : File.t) :
  State.file s = Some f ->
  whitespaceOnly (State.location s) = false ->
  classificationOf token w f = Normal (VArray []) ->
  World.onUpload w f (State.location s) = Normal tt ->
  let r := handleSubmit token w s in
  State.error (stateOf r) = None /\
  exists entry,
    State.uploadedFiles (stateOf r) = entry :: State.uploadedFiles s /\
    UploadedFileInfo.classification entry = Some (VArray []) /\
    UploadedFileInfo.topPrediction entry
    = Some (TopPrediction.mk (VString "unknown") (VNumber 0)).
Proof.
  intros Hf Hloc Hc Hup r. subst r.
  rewrite (handleSubmit_run token w s f Hf Hloc). cbv zeta. rewrite Hup, Hc.
  split; [reflexivity|]. eexists. repeat split; reflexivity.
Qed.

Lemma empty_classification_recorded_as_unknown_witness :
  State.error
    (stateOf (handleSubmit (Some "hf_token")
                (Sample.world (Normal Scenario.nothingHeard) (Normal tt))
                Sample.ready))
  = None.
Proof.
  exact (proj1
    (empty_classification_recorded_as_unknown (Some "hf_token")
       (Sample.world (Normal Scenario.nothingHeard) (Normal tt))
       Sample.ready Sample.song eq_refl eq_refl eq_refl eq_refl)).
Defined.

(** X25.  After a submission whose upload went through, the error cell shows
    what the inner [catch] caught and nothing else: it is empty exactly when
    [classifyAudio] returned and the ranking of what it returned did not
    throw, which is the case for every list of results of the declared type;
    otherwise it reads 'Audio classification failed: ' followed by the
    message of what was thrown.  Whatever error was shown before the
    submission is gone. *)
Theorem error_after_upload_is_classification_error
    (token : option string) (w : World.t) (s : State.t) (f : File.t) :
  State.file s = Some f ->
  whitespaceOnly (State.location s) = false ->
  World.onUpload w f (State.location s) = Normal tt ->
  let s' := stateOf (handleSubmit token w s) in
  (State.error s' = None <->
   exists answer,
     classificationOf token w f = Normal answer /\
     isNormal (rank w answer) = true) /\
  (forall results,
     classificationOf token w f = Normal (ofResults results) ->
     State.error s' = None) /\
  (forall e,
     classificationOf token w f = Throw e ->
     State.error s'
     = Some ("Audio classification failed: " ++ messageOr e "Unknown error")%string) /\
  (forall answer e,
     classificationOf token w f = Normal answer ->
     rank w answer = Throw e ->
     State.error s'
     = Some ("Audio classification failed: " ++ messageOr e "Unknown error")%string).
Proof.
  intros Hf Hloc Hup.
  rewrite (handleSubmit_run token w s f Hf Hloc). cbv zeta. rewrite Hup.
  unfold stateOf. cbn [fst snd State.error].
  unfold classificationError, innerFailure.
  destruct (classificationOf token w f) as [answer|e].
  - split; [|split; [|split]].
    + destruct (rank w answer) as [top|e] eqn:Hrank; split.
      * intros _. exists answer. rewrite Hrank. split; reflexivity.
      * reflexivity.
      * discriminate.
      * intros (answer' & [= <-] & H). rewrite Hrank in H. discriminate H.
    + intros results [= ->]. rewrite rank_ofResults. reflexivity.
    + discriminate.
    + intros answer' e [= <-] ->. reflexivity.
  - split; [|split; [|split]].
    + split; [discriminate|]. intros (answer & H & _). discriminate H.
    + discriminate.
    + intros e' [= <-]. reflexivity.
    + discriminate.
Qed.

Lemma error_after_upload_is_classification_error_witness :
  State.error
    (stateOf (handleSubmit (Some "hf_token")
                (Sample.world (Normal Sample.classified) (Normal tt))
                (withError (Some "Please upload an MP3 file") Sample.ready)))
  = None.
Proof.
  exact (proj1 (proj2
    (error_after_upload_is_classification_error (Some "hf_token")
       (Sample.world (Normal Sample.classified) (Normal tt))
       (withError (Some "Please upload an MP3 file") Sample.ready)
       Sample.song eq_refl eq_refl eq_refl))
    Sample.scores eq_refl).
Defined.

(** ** Answers that are not lists of results *)

(** X26.  When the endpoint answers [null], [classifyAudio] returns it and
    reading [classification.length] throws a TypeError inside [handleSubmit].
    The inner [catch] shows 'Audio classification failed: ' followed by the
    TypeError's message, the upload still runs, and when it resolves the
    entry recorded holds [null] as classification and the top prediction
    'unknown' with confidence 0. *)
Theorem null_answer_is_caught_and_recorded
    (token : option string) (w : World.t) (s : State.t) (f : File.t) :
  State.file s = Some f ->
  whitespaceOnly (State.location s) = false ->
  classificationOf token w f = Normal VNull ->
  World.onUpload w f (State.location s) = Normal tt ->
  let r := handleSubmit token w s in
  uploadCalls (traceOf r) = [(f, State.location s)] /\
  State.error (stateOf r)
  = Some ("Audio classification failed: "
            ++ World.typeErrorMessage w (PropertyOfNullish VNull "length"))%string /\
  exists entry,
    State.uploadedFiles (stateOf r) = entry :: State.uploadedFiles s /\
    UploadedFileInfo.classification entry = Some VNull /\
    UploadedFileInfo.topPrediction entry
    = Some (TopPrediction.mk (VString "unknown") (VNumber 0)).
Proof.
  intros Hf Hloc Hc Hup r. subst r.
  split; [now apply handleSubmit_uploads_once|].
  rewrite (handleSubmit_run token w s f Hf Hloc). cbv zeta. rewrite Hup, Hc.
  split; [reflexivity|]. eexists. repeat split; reflexivity.
Qed.

Lemma null_answer_is_caught_and_recorded_witness :
  State.error
    (stateOf (handleSubmit (Some "hf_token")
                (Sample.world (Normal Scenario.nullBody) (Normal tt))
                Sample.ready))
  = Some "Audio classification failed: Cannot read properties of null (reading 'length')".
Proof.
  exact (proj1 (proj2
    (null_answer_is_caught_and_recorded (Some "hf_token")
       (Sample.world (Normal Scenario.nullBody) (Normal tt))
       Sample.ready Sample.song eq_refl eq_refl eq_refl eq_refl))).
Defined.

(** X27.  An answer without a [length], that is a number, a boolean or an
    object with no member of that name (an error object, say), passes
    unnoticed: no error is shown, and when the upload resolves the answer is
    recorded as it is, as the classification of an entry whose top prediction
    is 'unknown' with confidence 0. *)
Theorem answer_without_length_is_recorded_silently
    (token : option string) (w : World.t) (s : State.t) (f : File.t)
    (answer : value) :
  State.file s = Some f ->
  whitespaceOnly (State.location s) = false ->
  classificationOf token w f = Normal answer ->
  propertyOf answer "length" = Some VUndefined ->
  World.onUpload w f (State.location s) = Normal tt ->
  let r := handleSubmit token w s in
  State.error (stateOf r) = None /\
  exists entry,
    State.uploadedFiles (stateOf r) = entry :: State.uploadedFiles s /\
    UploadedFileInfo.classification entry = Some answer /\
    UploadedFileInfo.topPrediction entry
    = Some (TopPrediction.mk (VString "unknown") (VNumber 0)).
Proof.
  intros Hf Hloc Hc Hlength Hup r. subst r.
  assert (Hrank : rank w answer = Normal None).
  { unfold rank, getProperty. rewrite Hlength. reflexivity. }
  rewrite (handleSubmit_run token w s f Hf Hloc). cbv zeta. rewrite Hup, Hc.
  unfold classificationError, innerFailure, rankedLocals. rewrite Hrank.
  split; [reflexivity|]. eexists. repeat split; reflexivity.
Qed.

Lemma answer_without_length_is_recorded_silently_witness :
  State.error
    (stateOf (handleSubmit (Some "hf_token")
                (Sample.world (Normal Scenario.errorObject) (Normal tt))
                Sample.ready))
  = None.
Proof.
  exact (proj1
    (answer_without_length_is_recorded_silently (Some "hf_token")
       (Sample.world (Normal Scenario.errorObject) (Normal tt))
       Sample.ready Sample.song
       (VObject (Member "error" (VString "Model not ready") NoMember))
       eq_refl eq_refl eq_refl eq_refl eq_refl)).
Defined.

(** X12.  The confidence of the top prediction does not depend on the order
    in which the endpoint lists its results: the scans of two lists that are
    permutations of each other end on elements of equal score (the label may
    differ when scores tie). *)
Theorem top_confidence_independent_of_order
    (l l' : list ClassificationResult.t) (top top' : ClassificationResult.t) :
  Permutation l l' ->
  reduce higherScore l = Normal top ->
  reduce higherScore l' = Normal top' ->
  (ClassificationResult.score top == ClassificationResult.score top')%Q.
Proof.
  intros Hperm Htop Htop'.
  assert (Hmax : forall m t, reduce higherScore m = Normal t ->
            In t m /\
            forall y, In y m ->
              (ClassificationResult.score y <= ClassificationResult.score t)%Q).
  { intros [|x xs] t H; [discriminate H|]. injection H as <-.
    destruct (reduce_higherScore_first_max xs x)
      as (before & after & Hsplit & Hbefore & Hafter).
    rewrite Hsplit. split; [apply in_elt|].
    intros y Hy. apply in_app_or in Hy. destruct Hy as [Hy|[<-|Hy]].
    - apply Qlt_le_weak, Hbefore, Hy.
    - apply Qle_refl.
    - apply Hafter, Hy. }
  destruct (Hmax l top Htop) as [Hin Hle].
  destruct (Hmax l' top' Htop') as [Hin' Hle'].
  apply Qle_antisym.
  - apply Hle'. eapply Permutation_in; eassumption.
  - apply Hle. eapply Permutation_in; [apply Permutation_sym|]; eassumption.
Qed.

Lemma top_confidence_independent_of_order_witness :
  (7 # 10 == 7 # 10)%Q.
Proof.
  exact (top_confidence_independent_of_order
           Sample.scores (rev Sample.scores)
           (ClassificationResult.mk "high" (7 # 10))
           (ClassificationResult.mk "very_high" (7 # 10))
           (Permutation_rev Sample.scores) eq_refl eq_refl).
Defined.

(** ** The submit button *)

Lemma submitDisabled_false_iff (s : State.t) :
  submitDisabled s = false <->
  (exists f, State.file s = Some f) /\
  whitespaceOnly (State.location s) = false /\
  State.isUploading s = false /\
  State.isClassifying s = false.
Proof.
  unfold submitDisabled. rewrite !orb_false_iff, !negb_false_iff.
  rewrite JsFacts.trim_truthy_iff.
  destruct (State.file s) as [f|]; split.
  - intros (((_ & Hloc) & Hup) & Hcl). eauto.
  - intros (_ & Hloc & Hup & Hcl). auto.
  - intros (((H & _) & _) & _). discriminate H.
  - intros ((f & H) & _). discriminate H.
Qed.

(** X13.  The guards of [handleSubmit] cannot stop a submission made through
    an enabled submit button: when the button is enabled a file is pending,
    and the handler goes on to invoke [onUpload] with that file and the
    location.  Conversely, whenever a guard would stop the handler the button
    is disabled. *)
Theorem enabled_button_passes_guards
    (token : option string) (w : World.t) (s : State.t) :
  (submitDisabled s = false ->
   exists f,
     State.file s = Some f /\
     uploadCalls (traceOf (handleSubmit token w s)) = [(f, State.location s)]) /\
  (State.file s = None \/ whitespaceOnly (State.location s) = true ->
   submitDisabled s = true).
Proof.
  split.
  - intros H. apply submitDisabled_false_iff in H.
    destruct H as ((f & Hf) & Hloc & _).
    exists f. split; [exact Hf|]. now apply handleSubmit_uploads_once.
  - intros H. apply not_false_iff_true. intros Hen.
    apply submitDisabled_false_iff in Hen.
    destruct Hen as ((f & Hf) & Hloc & _).
    destruct H as [H|H]; congruence.
Qed.

Lemma enabled_button_passes_guards_witness :
  exists f,
    State.file Sample.ready = Some f /\
    uploadCalls
      (traceOf (handleSubmit None (Sample.world (Throw NonError) (Normal tt))
                  Sample.ready))
    = [(f, "Downtown Park")].
Proof.
  exact (proj1
    (enabled_button_passes_guards None
       (Sample.world (Throw NonError) (Normal tt)) Sample.ready)
    eq_refl).
Defined.

(** X14.  After a submission that passed the guards the submit button reads
    'Upload & Analyze' again, and it is disabled exactly when the upload went
    through: a failed upload can be retried at once with the same file and
    location, a successful one needs a new file. *)
Theorem button_after_submission
    (token : option string) (w : World.t) (s : State.t) (f : File.t) :
  State.file s = Some f ->
  whitespaceOnly (State.location s) = false ->
  let s' := stateOf (handleSubmit token w s) in
  submitDisabled s' = isNormal (World.onUpload w f (State.location s)) /\
  submitLabel s' = "Upload & Analyze".
Proof.
  intros Hf Hloc. rewrite (handleSubmit_run token w s f Hf Hloc). cbv zeta.
  destruct (World.onUpload w f (State.location s)); unfold stateOf;
    cbn [fst snd]; split; try reflexivity.
  unfold submitDisabled.
  cbn [State.file State.location State.isUploading State.isClassifying].
  apply JsFacts.trim_truthy_iff in Hloc. rewrite Hloc. reflexivity.
Qed.

Lemma button_after_submission_witness :
  submitDisabled
    (stateOf (handleSubmit (Some "hf_token")
                (Sample.world (Normal Sample.classified) (Throw NonError))
                Sample.ready))
  = false.
Proof.
  exact (proj1
    (button_after_submission (Some "hf_token")
       (Sample.world (Normal Sample.classified) (Throw NonError))
       Sample.ready Sample.song eq_refl eq_refl)).
Defined.

(** ** [FileUpload] as [App] mounts it *)

(** X15.  The [onUpload] that [App] passes only logs the file and the
    location and resolves.  So in the application every submission that
    passes the guards is recorded, whatever the classification did: one
    entry for the file and the location is put in front of the history and
    the form is reset.  The only error that can be shown afterwards is the
    one of the inner [catch], 'Audio classification failed: ' followed by a
    message, which starts with 'Classification failed: ' when it was
    [classifyAudio] that threw. *)
Theorem app_submission_always_recorded
    (token : option string) (w : World.t) (s : State.t) (f : File.t) :
  State.file s = Some f ->
  whitespaceOnly (State.location s) = false ->
  let s' := stateOf (handleSubmit token (App.mount w) s) in
  snd (App.onUpload f (State.location s))
  = [App.Uploading f (State.location s)] /\
  (exists entry,
     State.uploadedFiles s' = entry :: State.uploadedFiles s /\
     UploadedFileInfo.name entry = File.name f /\
     UploadedFileInfo.location entry = State.location s) /\
  State.file s' = None /\
  State.location s' = "" /\
  (State.error s' = None \/
   exists message,
     State.error s' = Some ("Audio classification failed: " ++ message)%string) /\
  (forall e,
     classificationOf token (App.mount w) f = Throw e ->
     exists reason,
       State.error s'
       = Some ("Audio classification failed: Classification failed: "
                 ++ reason)%string).
Proof.
  intros Hf Hloc. rewrite (handleSubmit_run token (App.mount w) s f Hf Hloc).
  cbv zeta. cbn [App.mount World.onUpload App.onUpload fst snd].
  unfold stateOf. cbn [fst snd State.uploadedFiles State.file State.location
                         State.error].
  split; [reflexivity|]. split; [eexists; repeat split; reflexivity|].
  do 2 (split; [reflexivity|]).
  unfold classificationError. split.
  - destruct (innerFailure _ _) as [e|]; [right|left; reflexivity].
    eexists. reflexivity.
  - intros e Hc. rewrite Hc. cbn [innerFailure].
    destruct (classifyAudio_throws_wrapped _ _ _ _ Hc) as [reason ->].
    exists reason. reflexivity.
Qed.

Lemma app_submission_always_recorded_witness :
  State.file
    (stateOf (handleSubmit None
                (App.mount (Sample.world (Throw NonError) (Throw NonError)))
                Sample.ready))
  = None.
Proof.
  exact (proj1 (proj2 (proj2
    (app_submission_always_recorded None
       (Sample.world (Throw NonError) (Throw NonError))
       Sample.ready Sample.song eq_refl eq_refl)))).
Defined.

(** ** Selecting and removing a file *)



(** X17.  After Remove File nothing can be submitted: the submit button is
    disabled, and a submission would stop at the first guard with 'Please
    select a file to upload' without calling anything.  The location typed
    and the history are kept. *)
Theorem remove_file_blocks_submission
    (token : option string) (w : World.t) (s : State.t) :
  let s1 := stateOf (handleRemoveFile s) in
  let r := handleSubmit token w s1 in
  State.file s1 = None /\
  State.classificationResult s1 = None /\
  State.location s1 = State.location s /\
  State.uploadedFiles s1 = State.uploadedFiles s /\
  submitDisabled s1 = true /\
  State.error (stateOf r) = Some "Please select a file to upload" /\
  traceOf r = [PreventDefault] /\
  State.uploadedFiles (stateOf r) = State.uploadedFiles s.
Proof.
  cbv zeta.
  rewrite (handleSubmit_guarded token w (stateOf (handleRemoveFile s)))
    by (left; reflexivity).
  repeat split; reflexivity.
Qed.

(** ** Events handled one after another: invariants *)

Lemma handleAll_state_cons
    (token : option string) (a : action) (rest : list action) (s : State.t) :
  stateOf (handleAll token (a :: rest) s)
  = stateOf (handleAll token rest (stateOf (handlerOf token a s))).
Proof. apply handleAll_cons. Qed.

(** A property of the state that every handler keeps holds after any list
    of events. *)
Lemma handleAll_invariant (token : option string) (P : State.t -> Prop) :
  (forall a s, P s -> P (stateOf (handlerOf token a s))) ->
  forall actions s, P s -> P (stateOf (handleAll token actions s)).
Proof.
  intros Hstep actions. induction actions as [|a rest IH]; intros s Hs.
  - exact Hs.
  - rewrite handleAll_state_cons. apply IH, Hstep, Hs.
Qed.

(** What each handler leaves in the pending-file cell. *)
Lemma handlerOf_file
    (token : option string) (a : action) (s : State.t) (f : File.t) :
  State.file (stateOf (handlerOf token a s)) = Some f ->
  State.file s = Some f \/ isMp3 f = true.
Proof.
  destruct a as [ty|files|files|value| |w]; cbn [handlerOf].
  - unfold handleDrag, stateOf, bind, emit, ret, setDragActive, modify. cbn.
    destruct (_ || _); [now left|]. destruct (_ =? _)%string; now left.
  - unfold handleDrop, stateOf, bind, emit, ret, setDragActive, setFile,
      setError, setClassificationResult, modify.
    destruct files as [|g ?]; cbn -[isMp3]; [now left|].
    destruct (isMp3 g) eqn:Hg; cbn; [|now left].
    intros [= <-]. now right.
  - unfold handleFileChange, stateOf, bind, emit, ret, setFile, setError,
      setClassificationResult, modify.
    destruct files as [|g ?]; cbn -[isMp3]; [now left|].
    destruct (isMp3 g) eqn:Hg; cbn; [|now left].
    intros [= <-]. now right.
  - now left.
  - discriminate.
  - destruct (State.file s) as [g|] eqn:Hg.
    + destruct (whitespaceOnly (State.location s)) eqn:Hloc.
      * rewrite handleSubmit_guarded by (now right). cbn. rewrite Hg. now left.
      * rewrite (handleSubmit_run token w s g Hg Hloc). cbv zeta.
        destruct (World.onUpload w g (State.location s)); cbn;
          [discriminate | now left].
    + rewrite handleSubmit_guarded by (now left). cbn. rewrite Hg. now left.
Qed.

(** X18.  The pending file is always an MP3: after any list of events, handled
    one after another from the initial state, a file held in the form has
    the MIME type audio/mpeg or a name ending with '.mp3'.  Nothing else is
    ever classified or handed to [onUpload]. *)
Theorem pending_file_is_always_mp3
    (token : option string) (actions : list action) (f : File.t) :
  State.file (stateOf (handleAll token actions State.initial)) = Some f ->
  mp3Offered f.
Proof.
  intros H. apply isMp3_iff. revert f H.
  apply (handleAll_invariant token
           (fun s => forall f, State.file s = Some f -> isMp3 f = true)).
  - intros a s Hs f Hf. destruct (handlerOf_file token a s f Hf); auto.
  - intros f H. discriminate H.
Qed.

Lemma pending_file_is_always_mp3_witness :
  mp3Offered Sample.recording.
Proof.
  exact (pending_file_is_always_mp3 None
           [Drag "dragenter"; Drop [Sample.notes]; FileChange [Sample.recording]]
           Sample.recording eq_refl).
Defined.

Lemma handlerOf_busy_flags (token : option string) (a : action) (s : State.t) :
  State.isUploading s = false /\ State.isClassifying s = false ->
  State.isUploading (stateOf (handlerOf token a s)) = false /\
  State.isClassifying (stateOf (handlerOf token a s)) = false.
Proof.
  intros [Hup Hcl].
  destruct a as [ty|files|files|value| |w]; cbn [handlerOf].
  - unfold handleDrag, stateOf, bind, emit, ret, setDragActive, modify. cbn.
    destruct (_ || _); [now split|]. destruct (_ =? _)%string; now split.
  - unfold handleDrop, stateOf, bind, emit, ret, setDragActive, setFile,
      setError, setClassificationResult, modify.
    destruct files as [|g ?]; cbn -[isMp3]; [now split|].
    destruct (isMp3 g); now split.
  - unfold handleFileChange, stateOf, bind, emit, ret, setFile, setError,
      setClassificationResult, modify.
    destruct files as [|g ?]; cbn -[isMp3]; [now split|].
    destruct (isMp3 g); now split.
  - now split.
  - now split.
  - destruct (State.file s) as [g|] eqn:Hg.
    + destruct (whitespaceOnly (State.location s)) eqn:Hloc.
      * rewrite handleSubmit_guarded by (now right). now split.
      * rewrite (handleSubmit_run token w s g Hg Hloc). cbv zeta.
        destruct (World.onUpload w g (State.location s)); now split.
    + rewrite handleSubmit_guarded by (now left). now split.
Qed.

(** X19.  When events are handled one after another, the form is never left
    busy: after any list of events both busy flags are false, the submit
    button reads 'Upload & Analyze', and it is enabled exactly when a file is
    pending and the location is not blank. *)
Theorem form_is_never_left_busy (token : option string) (actions : list action) :
  let s := stateOf (handleAll token actions State.initial) in
  State.isUploading s = false /\
  State.isClassifying s = false /\
  submitLabel s = "Upload & Analyze" /\
  (submitDisabled s = false <->
   (exists f, State.file s = Some f) /\
   whitespaceOnly (State.location s) = false).
Proof.
  cbv zeta.
  assert (H : State.isUploading (stateOf (handleAll token actions State.initial))
              = false
              /\ State.isClassifying
                   (stateOf (handleAll token actions State.initial))
                 = false).
  { apply (handleAll_invariant token
             (fun s => State.isUploading s = false
                       /\ State.isClassifying s = false)).
    - exact (handlerOf_busy_flags token).
    - split; reflexivity. }
  destruct H as [Hup Hcl]. split; [exact Hup|]. split; [exact Hcl|]. split.
  - unfold submitLabel. rewrite Hup, Hcl. reflexivity.
  - rewrite submitDisabled_false_iff. tauto.
Qed.

(** The callback hands back one of its two arguments. *)
Lemma scoreCallback_choice (w : World.t) (max current result : value) :
  scoreCallback w max current = Normal result ->
  result = max \/ result = current.
Proof.
  unfold scoreCallback, getProperty.
  destruct (propertyOf current "score"); [|discriminate].
  destruct (propertyOf max "score"); [|discriminate].
  cbn [andThen]. destruct (greater w _ _); intros [= <-]; auto.
Qed.

(** The scan ends on an element of the array. *)
Lemma reduceFrom_member
    (w : World.t) (rest : list value) (first top : value) :
  reduceFrom (scoreCallback w) first rest = Normal top ->
  In top (first :: rest).
Proof.
  revert first. induction rest as [|current rest IH]; intros first.
  - intros [= <-]. now left.
  - cbn [reduceFrom].
    destruct (scoreCallback w first current) as [chosen|e] eqn:Hchosen;
      [|discriminate].
    cbn [andThen]. intros H. apply IH in H.
    destruct (scoreCallback_choice w first current chosen Hchosen) as [->| ->].
    + destruct H as [H|H]; [left; exact H | right; right; exact H].
    + right. exact H.
Qed.

(** What the ranking assigns was read from an element of an array. *)
Lemma rank_reads_an_element
    (w : World.t) (classification : value) (prediction : TopPrediction.t) :
  rank w classification = Normal (Some prediction) ->
  exists elements element,
    classification = VArray elements /\
    In element elements /\
    propertyOf element "label" = Some (TopPrediction.label prediction) /\
    propertyOf element "score" = Some (TopPrediction.confidence prediction).
Proof.
  unfold rank, getProperty.
  destruct (propertyOf classification "length") as [length|]; [|discriminate].
  cbn [andThen]. destruct (greater w length (VNumber 0)); [|discriminate].
  destruct classification as [| | | | |[|first rest]|]; try discriminate.
  cbn [callReduce].
  destruct (reduceFrom (scoreCallback w) first rest) as [top|e] eqn:Htop;
    [|discriminate].
  cbn [andThen].
  destruct (propertyOf top "label") as [label|] eqn:Hlabel; [|discriminate].
  cbn [andThen].
  destruct (propertyOf top "score") as [confidence|] eqn:Hscore; [|discriminate].
  cbn [andThen]. intros [= <-].
  exists (first :: rest), top.
  split; [reflexivity|]. split; [exact (reduceFrom_member w rest first top Htop)|].
  split; assumption.
Qed.

Lemma rankedLocals_top (w : World.t) (c : completion value) :
  snd (rankedLocals w c) = unknownPrediction \/
  exists elements element,
    fst (rankedLocals w c) = VArray elements /\
    In element elements /\
    propertyOf element "label" = Some (TopPrediction.label (snd (rankedLocals w c))) /\
    propertyOf element "score"
    = Some (TopPrediction.confidence (snd (rankedLocals w c))).
Proof.
  destruct c as [classification|e]; [|now left].
  cbn [rankedLocals fst snd].
  destruct (rank w classification) as [[prediction|]|e] eqn:Hrank;
    [right|now left|now left].
  exact (rank_reads_an_element w classification prediction Hrank).
Qed.

Lemma handlerOf_history (token : option string) (a : action) (s : State.t) :
  (forall f, State.file s = Some f -> isMp3 f = true) ->
  Forall wellFormedEntry (State.uploadedFiles s) ->
  Forall wellFormedEntry (State.uploadedFiles (stateOf (handlerOf token a s))).
Proof.
  intros Hfile Hhistory.
  destruct a as [ty|files|files|value| |w]; cbn [handlerOf].
  - unfold handleDrag, stateOf, bind, emit, ret, setDragActive, modify. cbn.
    destruct (_ || _); [assumption|]. destruct (_ =? _)%string; assumption.
  - unfold handleDrop, stateOf, bind, emit, ret, setDragActive, setFile,
      setError, setClassificationResult, modify.
    destruct files as [|g ?]; cbn -[isMp3]; [assumption|].
    destruct (isMp3 g); assumption.
  - unfold handleFileChange, stateOf, bind, emit, ret, setFile, setError,
      setClassificationResult, modify.
    destruct files as [|g ?]; cbn -[isMp3]; [assumption|].
    destruct (isMp3 g); assumption.
  - assumption.
  - assumption.
  - destruct (State.file s) as [g|] eqn:Hg.
    + destruct (whitespaceOnly (State.location s)) eqn:Hloc.
      * rewrite handleSubmit_guarded by (now right). assumption.
      * rewrite (handleSubmit_run token w s g Hg Hloc). cbv zeta.
        destruct (World.onUpload w g (State.location s)); [|assumption].
        unfold stateOf. cbn [fst snd State.uploadedFiles].
        constructor; [|assumption].
        split; [apply isMp3_iff, Hfile; reflexivity|].
        split; [exact Hloc|].
        eexists _, _. split; [reflexivity|]. split; [reflexivity|].
        apply rankedLocals_top.
    + rewrite handleSubmit_guarded by (now left). assumption.
Qed.

(** X20.  Every entry of the history is well formed: after any list of
    events, handled one after another from the initial state, each entry
    describes an MP3 (by MIME type or by name) and a location that is not
    blank, and holds a classification (what the endpoint answered, of
    whatever shape, or the empty list) and a top prediction; the top
    prediction is 'unknown' with confidence 0, or the classification is an
    array and the label and confidence are the [label] and [score] read from
    one of its elements. *)
Theorem history_entries_are_well_formed
    (token : option string) (actions : list action) :
  Forall wellFormedEntry
    (State.uploadedFiles (stateOf (handleAll token actions State.initial))).
Proof.
  apply (handleAll_invariant token
           (fun s => (forall f, State.file s = Some f -> isMp3 f = true)
                     /\ Forall wellFormedEntry (State.uploadedFiles s))).
  - intros a s [Hfile Hhistory]. split.
    + intros f Hf. destruct (handlerOf_file token a s f Hf); auto.
    + now apply handlerOf_history.
  - split; [intros f H; discriminate H | constructor].
Qed.

Lemma handlerOf_history_step (token : option string) (a : action) (s : State.t) :
  State.uploadedFiles (stateOf (handlerOf token a s)) = State.uploadedFiles s \/
  isSubmit a = true /\
  exists entry,
    State.uploadedFiles (stateOf (handlerOf token a s))
    = entry :: State.uploadedFiles s.
Proof.
  destruct a as [ty|files|files|value| |w]; cbn [handlerOf isSubmit].
  - left. unfold handleDrag, stateOf, bind, emit, ret, setDragActive, modify.
    cbn. destruct (_ || _); [reflexivity|].
    destruct (_ =? _)%string; reflexivity.
  - left. unfold handleDrop, stateOf, bind, emit, ret, setDragActive, setFile,
      setError, setClassificationResult, modify.
    destruct files as [|g ?]; cbn -[isMp3]; [reflexivity|].
    destruct (isMp3 g); reflexivity.
  - left. unfold handleFileChange, stateOf, bind, emit, ret, setFile, setError,
      setClassificationResult, modify.
    destruct files as [|g ?]; cbn -[isMp3]; [reflexivity|].
    destruct (isMp3 g); reflexivity.
  - now left.
  - now left.
  - destruct (State.file s) as [g|] eqn:Hg.
    + destruct (whitespaceOnly (State.location s)) eqn:Hloc.
      * left. rewrite handleSubmit_guarded by (now right). reflexivity.
      * rewrite (handleSubmit_run token w s g Hg Hloc). cbv zeta.
        destruct (World.onUpload w g (State.location s));
          [right; split; [reflexivity|eexists; reflexivity] | now left].
    + left. rewrite handleSubmit_guarded by (now left). reflexivity.
Qed.

(** X21.  The history never holds more entries than there were submissions:
    after any list of events its length is at most the length before plus the
    number of submit events, and no event ever makes it shorter. *)
Theorem history_bounded_by_submissions
    (token : option string) (actions : list action) (s : State.t) :
  let n :=
    List.length (State.uploadedFiles (stateOf (handleAll token actions s))) in
  (List.length (State.uploadedFiles s) <= n
   <= List.length (State.uploadedFiles s)
      + List.length (filter isSubmit actions))%nat.
Proof.
  cbv zeta. revert s. induction actions as [|a rest IH]; intros s.
  - cbn. lia.
  - rewrite handleAll_state_cons.
    specialize (IH (stateOf (handlerOf token a s))).
    cbn [filter].
    destruct (handlerOf_history_step token a s)
      as [Hsame|(Hsubmit & entry & Hcons)].
    + rewrite Hsame in IH. destruct (isSubmit a); cbn [List.length]; lia.
    + rewrite Hcons in IH. rewrite Hsubmit. cbn [List.length] in *. lia.
Qed.

Lemma handleAll_app
    (token : option string) (l1 l2 : list action) (s : State.t) :
  stateOf (handleAll token (l1 ++ l2) s)
  = stateOf (handleAll token l2 (stateOf (handleAll token l1 s))).
Proof.
  revert s. induction l1 as [|a l1 IH]; intros s; [reflexivity|].
  cbn [app]. rewrite !handleAll_state_cons. apply IH.
Qed.

(** One round that goes through puts one entry in front of the history. *)
Lemma round_recorded
    (token : option string) (w : World.t) (f : File.t) (loc : string)
    (s : State.t) :
  goesThrough (w, f, loc) ->
  exists entry,
    State.uploadedFiles (stateOf (handleAll token (round w f loc) s))
    = entry :: State.uploadedFiles s /\
    UploadedFileInfo.name entry = File.name f /\
    UploadedFileInfo.location entry = loc.
Proof.
  intros (Hmp3 & Hloc & Hup). unfold round.
  rewrite !handleAll_state_cons. cbn [handleAll handlerOf].
  set (s1 := stateOf (handleFileChange [f] s)).
  set (s2 := stateOf (handleLocationChange loc s1)).
  assert (Hfile : State.file s2 = Some f).
  { subst s2 s1. unfold handleFileChange. rewrite Hmp3. reflexivity. }
  assert (Hlocation : State.location s2 = loc) by reflexivity.
  assert (Hhistory : State.uploadedFiles s2 = State.uploadedFiles s).
  { subst s2 s1. unfold handleFileChange. rewrite Hmp3. reflexivity. }
  assert (Hblank : whitespaceOnly (State.location s2) = false)
    by (rewrite Hlocation; exact Hloc).
  change (stateOf (ret tt (stateOf (handleSubmit token w s2))))
    with (stateOf (handleSubmit token w s2)).
  rewrite (handleSubmit_run token w s2 f Hfile Hblank). cbv zeta.
  rewrite Hlocation, Hup, Hhistory.
  eexists. repeat split; reflexivity.
Qed.

(** X22.  Across submissions the history is most recent first: after a list
    of rounds that go through (pick an MP3, type a location that is not
    blank, submit, the upload resolves), starting from any state, the names
    and locations recorded are those of the rounds in reverse order, in front
    of what was recorded before. *)
Theorem rounds_recorded_most_recent_first
    (token : option string) (rounds : list (World.t * File.t * string))
    (s : State.t) :
  Forall goesThrough rounds ->
  let events :=
    flat_map (fun r => round (fst (fst r)) (snd (fst r)) (snd r)) rounds in
  let recorded (entry : UploadedFileInfo.t) :=
    (UploadedFileInfo.name entry, UploadedFileInfo.location entry) in
  map recorded (State.uploadedFiles (stateOf (handleAll token events s)))
  = rev (map (fun r => (File.name (snd (fst r)), snd r)) rounds)
    ++ map recorded (State.uploadedFiles s).
Proof.
  cbv zeta. intros Hrounds. revert s.
  induction Hrounds as [|[[w f] loc] rest Hr _ IH]; intros s; [reflexivity|].
  cbn [flat_map fst snd map rev]. rewrite handleAll_app, IH.
  destruct (round_recorded token w f loc s Hr) as (entry & -> & Hname & Hloc).
  cbn [map]. rewrite Hname, Hloc, <- app_assoc. reflexivity.
Qed.

Lemma rounds_recorded_most_recent_first_witness :
  map (fun entry => (UploadedFileInfo.name entry, UploadedFileInfo.location entry))
    (State.uploadedFiles
       (stateOf
          (handleAll (Some "hf_token")
             (round (Sample.world (Throw NonError) (Normal tt))
                Sample.song "Downtown Park"
              ++ round (Sample.world (Normal Sample.classified) (Normal tt))
                   Sample.recording "5th Street")
             State.initial)))
  = [("field-recording.mp3", "5th Street"); ("street.mp3", "Downtown Park")].
Proof.
  refine (rounds_recorded_most_recent_first (Some "hf_token")
            [ (Sample.world (Throw NonError) (Normal tt),
               Sample.song, "Downtown Park");
              (Sample.world (Normal Sample.classified) (Normal tt),
               Sample.recording, "5th Street") ]
            State.initial _).
  repeat constructor.
Defined.

(** ** What the render derives *)

Lemma ownProperty_colors_None (label : string) :
  ~ In label (map fst colors) -> ownProperty colors label = None.
Proof.
  intros H. unfold colors in *. cbn [map fst In] in H. cbn [ownProperty].
  repeat match goal with
         | |- context [String.eqb ?k label] =>
             destruct (String.eqb_spec k label); [exfalso; apply H; tauto|]
         end.
  reflexivity.
Qed.

(** X23.  [getNoiseLevelColor] gives the four noise levels four different
    badge classes, none of them the gray default, whatever [Object.prototype]
    holds.  A label that is not one of the four gets the gray default, unless
    it names a property of [Object.prototype]: then the value found there
    comes back instead of a class string. *)
Theorem getNoiseLevelColor_by_level (inherited : string -> bool) :
  (forall l1 l2,
     In l1 (map fst colors) -> In l2 (map fst colors) ->
     getNoiseLevelColor inherited l1 = getNoiseLevelColor inherited l2 ->
     l1 = l2) /\
  (forall label,
     In label (map fst colors) ->
     exists classes,
       getNoiseLevelColor inherited label = ClassNames classes /\
       classes <> defaultColor) /\
  (forall label,
     ~ In label (map fst colors) ->
     getNoiseLevelColor inherited label
     = if inherited label then Inherited label else ClassNames defaultColor).
Proof.
  split; [|split].
  - intros l1 l2 H1 H2.
    cbn in H1, H2.
    repeat (destruct H1 as [<-|H1]); try contradiction;
      repeat (destruct H2 as [<-|H2]); try contradiction;
      cbn; intros H; solve [reflexivity | discriminate H].
  - intros label H. cbn in H.
    repeat (destruct H as [<-|H]); try contradiction;
      eexists; (split; [reflexivity | discriminate]).
  - intros label H. unfold getNoiseLevelColor.
    rewrite (ownProperty_colors_None label H). reflexivity.
Qed.

Lemma getNoiseLevelColor_by_level_witness :
  getNoiseLevelColor (fun key => String.eqb key "constructor") "unknown"
  = ClassNames defaultColor /\
  getNoiseLevelColor (fun key => String.eqb key "constructor") "constructor"
  = Inherited "constructor".
Proof.
  split.
  - apply (proj2 (proj2
      (getNoiseLevelColor_by_level (fun key => String.eqb key "constructor")))
      "unknown").
    cbn. intros H. repeat (destruct H as [H|H]; [discriminate H|]). exact H.
  - apply (proj2 (proj2
      (getNoiseLevelColor_by_level (fun key => String.eqb key "constructor")))
      "constructor").
    cbn. intros H. repeat (destruct H as [H|H]; [discriminate H|]). exact H.
Defined.

Lemma displayLabel_cons (c : ascii) (l : string) :
  displayLabel (String c l)
  = if Ascii.eqb c "_" then String " " l else String c (displayLabel l).
Proof.
  unfold displayLabel. cbn [replace prefix].
  destruct (ascii_dec "_" c) as [<-|Hc].
  - assert (Hp : prefix "" l = true) by (destruct l; reflexivity).
    rewrite Hp. cbn. rewrite Nat.sub_0_r, JsFacts.substring_all. reflexivity.
  - apply not_eq_sym, Ascii.eqb_neq in Hc. rewrite Hc. reflexivity.
Qed.

(** X24.  The label shown in a badge is the label with its first underscore
    replaced by a space: a label [a_b] whose part [a] holds no underscore is
    shown as [a b], with any further underscore of [b] left in place; a label
    without underscore is shown as it is.  The length never changes. *)
Theorem displayLabel_replaces_first_underscore :
  (forall a b : string,
     (forall c, In c (list_ascii_of_string a) -> c <> "_"%char) ->
     displayLabel (a ++ "_" ++ b) = (a ++ " " ++ b)%string) /\
  (forall l : string,
     (forall c, In c (list_ascii_of_string l) -> c <> "_"%char) ->
     displayLabel l = l) /\
  (forall l : string, String.length (displayLabel l) = String.length l).
Proof.
  split; [|split].
  - intros a b. induction a as [|c a IH]; intros Hclean.
    + cbn [String.append]. rewrite displayLabel_cons. reflexivity.
    + cbn [String.append]. rewrite displayLabel_cons.
      assert (Hc : Ascii.eqb c "_" = false).
      { apply Ascii.eqb_neq, Hclean. now left. }
      rewrite Hc. f_equal. apply IH. intros d Hd. apply Hclean. now right.
  - intros l. induction l as [|c l IH]; intros Hclean; [reflexivity|].
    rewrite displayLabel_cons.
    assert (Hc : Ascii.eqb c "_" = false).
    { apply Ascii.eqb_neq, Hclean. now left. }
    rewrite Hc. f_equal. apply IH. intros d Hd. apply Hclean. now right.
  - intros l. induction l as [|c l IH]; [reflexivity|].
    rewrite displayLabel_cons. destruct (Ascii.eqb c "_"); cbn; congruence.
Qed.

Lemma displayLabel_replaces_first_underscore_witness :
  displayLabel "very_high" = "very high" /\
  displayLabel "very_very_high" = "very very_high" /\
  displayLabel "moderate" = "moderate".
Proof.
  split; [|split].
  - apply (proj1 displayLabel_replaces_first_underscore "very" "high").
    intros c H. repeat (destruct H as [<-|H]; [discriminate|]). destruct H.
  - apply (proj1 displayLabel_replaces_first_underscore "very" "very_high").
    intros c H. repeat (destruct H as [<-|H]; [discriminate|]). destruct H.
  - apply (proj1 (proj2 displayLabel_replaces_first_underscore) "moderate").
    intros c H. repeat (destruct H as [<-|H]; [discriminate|]). destruct H.
Defined.
